(** * publish_blog.py: a shallow embedding and its verified properties

    The development follows [src/publish_blog.py]: the post compiler
    ([slugify], [parse_markdown_file]), the publishing client
    ([publish_post], [list_posts]) and the driver ([process_path], [main]).

    Python strings are sequences of Unicode code points; the Unicode
    database that [str.lower], [str.title], [str.strip] and the regular
    expression classes [\w] and [\s] consult is not part of the repository
    and is taken as a parameter ([Unicode]).  Printing, the network and the
    file system are explicit: a run threads a [State] (the lines printed so
    far and the requests sent so far) and ends in a value or in a raised
    exception. *)

From Stdlib Require Import String Ascii.
From Stdlib Require Import List NArith ZArith Bool Lia.
From Stdlib Require Import SpecFloat.
From Stdlib Require Import Permutation Sorted.
Import ListNotations.
Local Open Scope list_scope.

Set Implicit Arguments.
Set Warnings "-register-all".

(* ================================================================== *)
(** * Part I: definitions *)
(* ================================================================== *)

(** ** Python strings *)

Definition codepoint := N.
Definition pystr := list codepoint.

(** An ASCII literal of the source, as code points. *)
Definition lit (s : string) : pystr :=
  map N_of_ascii (list_ascii_of_string s).
Arguments lit s%_string.

Definition hyphen : codepoint := 45%N.
Definition underscore : codepoint := 95%N.
Definition space : codepoint := 32%N.

Fixpoint pystr_eqb (s t : pystr) : bool :=
  match s, t with
  | [], [] => true
  | c :: s', d :: t' => N.eqb c d && pystr_eqb s' t'
  | _, _ => false
  end.

(** [s.replace(a, b)] for one-character [a] and [b]. *)
Definition replace_char (a b : codepoint) (s : pystr) : pystr :=
  map (fun c => if N.eqb c a then b else c) s.

(** [s[:n]]. *)
Definition py_prefix (n : nat) (s : pystr) : pystr := firstn n s.

(** [sep.join(parts)]. *)
Fixpoint py_join (sep : pystr) (parts : list pystr) : pystr :=
  match parts with
  | [] => []
  | [p] => p
  | p :: rest => p ++ sep ++ py_join sep rest
  end.

(** The part of the Unicode database the program consults.
    [py_lower] and [py_title] are whole-string functions because Python's
    case mappings are context sensitive and may change the length;
    [py_isspace] is the predicate behind both [str.strip] and [\s];
    [py_isalnum] is the predicate behind [\w] (together with the
    underscore). *)
Class Unicode := {
  py_lower   : pystr -> pystr;
  py_title   : pystr -> pystr;
  py_isspace : codepoint -> bool;
  py_isalnum : codepoint -> bool
}.

(** *** The ASCII part of the tables, as Python has it *)

Definition is_ascii (c : codepoint) : bool := N.ltb c 128.
Definition ascii_isupper (c : codepoint) : bool := N.leb 65 c && N.leb c 90.
Definition ascii_islower (c : codepoint) : bool := N.leb 97 c && N.leb c 122.
Definition ascii_isdigit (c : codepoint) : bool := N.leb 48 c && N.leb c 57.
Definition ascii_isalnum (c : codepoint) : bool :=
  ascii_isdigit c || ascii_isupper c || ascii_islower c.

(** [str.isspace] on ASCII: tab, line feed, vertical tab, form feed,
    carriage return, the four separators 0x1c..0x1f and the space. *)
Definition ascii_isspace (c : codepoint) : bool :=
  (N.leb 9 c && N.leb c 13) || (N.leb 28 c && N.leb c 32).

Definition ascii_tolower (c : codepoint) : codepoint :=
  if ascii_isupper c then (c + 32)%N else c.
Definition ascii_toupper (c : codepoint) : codepoint :=
  if ascii_islower c then (c - 32)%N else c.

(** [str.title] on ASCII: a cased character is upper-cased when the
    character before it is not cased and lower-cased otherwise. *)
Fixpoint ascii_title_from (previous_is_cased : bool) (s : pystr) : pystr :=
  match s with
  | [] => []
  | c :: rest =>
      let cased := ascii_isupper c || ascii_islower c in
      (if previous_is_cased then ascii_tolower c else ascii_toupper c)
        :: ascii_title_from cased rest
  end.

(** The tables restricted to ASCII: code points from 128 on are neither
    spaces nor alphanumeric and have no case. *)
Definition ascii_unicode : Unicode := {|
  py_lower   := map ascii_tolower;
  py_title   := ascii_title_from false;
  py_isspace := ascii_isspace;
  py_isalnum := ascii_isalnum
|}.

(** ** slugify (publish_blog.py, lines 62-68) *)

Section Slugify.
Context {U : Unicode}.

(** [text.strip()]. *)
Fixpoint lstrip (s : pystr) : pystr :=
  match s with
  | [] => []
  | c :: rest => if py_isspace c then lstrip rest else s
  end.
Definition rstrip (s : pystr) : pystr := rev (lstrip (rev s)).
Definition strip (s : pystr) : pystr := rstrip (lstrip s).

(** The class [\w]. *)
Definition is_word (c : codepoint) : bool :=
  py_isalnum c || N.eqb c underscore.

(** The class [[\w\s-]], whose complement the first substitution deletes. *)
Definition slug_keep (c : codepoint) : bool :=
  is_word c || py_isspace c || N.eqb c hyphen.

(** The class [[-\s]] of the second substitution. *)
Definition slug_sep (c : codepoint) : bool :=
  N.eqb c hyphen || py_isspace c.

(** [re.sub(r'[^\w\s-]', '', text)]: every character outside the class
    is a match and is deleted. *)
Definition strip_unwanted (s : pystr) : pystr := filter slug_keep s.

(** [re.sub(r'[-\s]+', '-', text)]: the matches of a greedy
    character-class repetition are the maximal runs; each becomes one
    hyphen.  [in_run] tells that the character before belongs to a run
    already replaced. *)
Fixpoint collapse_runs (in_run : bool) (s : pystr) : pystr :=
  match s with
  | [] => []
  | c :: rest =>
      if slug_sep c
      then (if in_run then collapse_runs true rest
            else hyphen :: collapse_runs true rest)
      else c :: collapse_runs false rest
  end.

Definition slugify (text : pystr) : pystr :=
  let text := strip (py_lower text) in
  let text := strip_unwanted text in
  let text := collapse_runs false text in
  text.

(** No two hyphens in a row. *)
Fixpoint single_hyphens (s : pystr) : bool :=
  match s with
  | c :: rest =>
      match rest with
      | d :: _ => negb (N.eqb c hyphen && N.eqb d hyphen)
      | [] => true
      end && single_hyphens rest
  | [] => true
  end.

Definition starts_with_hyphen (s : pystr) : bool :=
  match s with
  | c :: _ => N.eqb c hyphen
  | [] => false
  end.

Definition ends_with_hyphen (s : pystr) : bool :=
  starts_with_hyphen (rev s).

(** A lowercase letter or a digit: alphanumeric and left alone by
    lower-casing. *)
Definition is_lower_or_digit (c : codepoint) : bool :=
  py_isalnum c && pystr_eqb (py_lower [c]) [c].

(** The shape the specification gives a slug: only lowercase letters,
    digits and single hyphens, no hyphen at either end. *)
Definition spec_slug_shape (s : pystr) : bool :=
  forallb (fun c => N.eqb c hyphen || is_lower_or_digit c) s
  && single_hyphens s
  && negb (starts_with_hyphen s)
  && negb (ends_with_hyphen s).
End Slugify.

(** ** Numbers and dates as text *)

Fixpoint uint_digits (u : Decimal.uint) : pystr :=
  match u with
  | Decimal.Nil => []
  | Decimal.D0 r => 48%N :: uint_digits r
  | Decimal.D1 r => 49%N :: uint_digits r
  | Decimal.D2 r => 50%N :: uint_digits r
  | Decimal.D3 r => 51%N :: uint_digits r
  | Decimal.D4 r => 52%N :: uint_digits r
  | Decimal.D5 r => 53%N :: uint_digits r
  | Decimal.D6 r => 54%N :: uint_digits r
  | Decimal.D7 r => 55%N :: uint_digits r
  | Decimal.D8 r => 56%N :: uint_digits r
  | Decimal.D9 r => 57%N :: uint_digits r
  end.

(** [str(n)] for a natural number. *)
Definition decimal (n : N) : pystr := uint_digits (N.to_uint n).

(** [str(z)] for an integer. *)
Definition decimal_Z (z : Z) : pystr :=
  if Z.ltb z 0 then hyphen :: decimal (Z.abs_N z) else decimal (Z.abs_N z).

(** The conversion [%0wd] on a natural number. *)
Definition zero_pad (w : nat) (n : N) : pystr :=
  let digits := decimal n in
  repeat 48%N (w - length digits) ++ digits.

(** A calendar date and a wall-clock time, with the fields of Python's
    [date] and of a naive [datetime]. *)
Record Date := { year : N; month : N; day : N }.
Record DateTime := {
  on_date : Date; hour : N; minute : N; second : N; microsecond : N
}.

Definition valid_date (d : Date) : bool :=
  N.leb 1 (year d) && N.leb (year d) 9999 &&
  N.leb 1 (month d) && N.leb (month d) 12 &&
  N.leb 1 (day d) && N.leb (day d) 31.


(** [date.isoformat()]: ["%04d-%02d-%02d"]. *)
Definition date_isoformat (d : Date) : pystr :=
  zero_pad 4 (year d) ++ [hyphen] ++ zero_pad 2 (month d)
    ++ [hyphen] ++ zero_pad 2 (day d).

(** ["%02d:%02d:%02d"], the time of day at second precision. *)
Definition time_seconds (t : DateTime) : pystr :=
  zero_pad 2 (hour t) ++ lit ":" ++ zero_pad 2 (minute t)
    ++ lit ":" ++ zero_pad 2 (second t).

(** The UTC offset that [isoformat] appends for an aware [datetime]:
    sign, hours and minutes, and the seconds when they are not zero.
    The offset is held in whole seconds. *)
Definition format_offset (utcoffset : option Z) : pystr :=
  match utcoffset with
  | None => []
  | Some off =>
      let sign := if Z.ltb off 0 then lit "-" else lit "+" in
      let a := Z.abs_N off in
      let hh := (a / 3600)%N in
      let mm := ((a mod 3600) / 60)%N in
      let ss := (a mod 60)%N in
      sign ++ zero_pad 2 hh ++ lit ":" ++ zero_pad 2 mm
        ++ (if N.eqb ss 0 then [] else lit ":" ++ zero_pad 2 ss)
  end.

(** [value.isoformat(sep=' ', timespec='seconds')]. *)
Definition datetime_isoformat (t : DateTime) (utcoffset : option Z) : pystr :=
  date_isoformat (on_date t) ++ [space] ++ time_seconds t
    ++ format_offset utcoffset.

(** [value.strftime('%Y-%m-%d %H:%M:%S')]. *)
Definition strftime_seconds (t : DateTime) : pystr :=
  date_isoformat (on_date t) ++ [space] ++ time_seconds t.

(** The format [YYYY-MM-DD]. *)
Definition shape_date (s : pystr) : bool :=
  match s with
  | [y1; y2; y3; y4; h1; m1; m2; h2; d1; d2] =>
      forallb ascii_isdigit [y1; y2; y3; y4; m1; m2; d1; d2]
      && N.eqb h1 hyphen && N.eqb h2 hyphen
  | _ => false
  end.


(** ** Python values

    What YAML front matter and a JSON response body can hold.  A
    [datetime] carries its UTC offset when it is aware; a dictionary keeps
    its items in insertion order. *)
Inductive pyval : Type :=
| PNone
| PBool (b : bool)
| PInt (z : Z)
| PFloat (f : spec_float)
| PStr (s : pystr)
| PDate (d : Date)
| PDateTime (t : DateTime) (utcoffset : option Z)
| PList (items : list pyval)
| PDict (items : list (pyval * pyval)).

Definition pydict := list (pyval * pyval).

(** Truth value testing, as [if v:] does it. *)
Definition py_truthy (v : pyval) : bool :=
  match v with
  | PNone => false
  | PBool b => b
  | PInt z => negb (Z.eqb z 0)
  | PFloat (S754_zero _) => false
  | PFloat _ => true
  | PStr [] => false
  | PStr _ => true
  | PDate _ => true
  | PDateTime _ _ => true
  | PList [] => false
  | PList _ => true
  | PDict [] => false
  | PDict _ => true
  end.

(** [d.get(key)] for a string key, [None] standing for a missing key:
    only a string key can be equal to it. *)
Fixpoint dict_lookup (d : pydict) (key : pystr) : option pyval :=
  match d with
  | [] => None
  | (PStr k, v) :: rest =>
      if pystr_eqb k key then Some v else dict_lookup rest key
  | _ :: rest => dict_lookup rest key
  end.

(** [d.get(key, default)]. *)
Definition dict_get (d : pydict) (key : pystr) (default : pyval) : pyval :=
  match dict_lookup d key with
  | Some v => v
  | None => default
  end.

(** [d[key] = v]: the value is replaced in place, a new key is appended. *)
Fixpoint dict_set (d : pydict) (key : pystr) (v : pyval) : pydict :=
  match d with
  | [] => [(PStr key, v)]
  | (PStr k, w) :: rest =>
      if pystr_eqb k key then (PStr k, v) :: rest
      else (PStr k, w) :: dict_set rest key v
  | item :: rest => item :: dict_set rest key v
  end.

(** How [json.dumps(v, allow_nan=False)] ends. *)
Inductive encode_status := Encodes | EncodeTypeError | EncodeValueError.

Definition float_status (f : spec_float) : encode_status :=
  match f with
  | S754_nan => EncodeValueError
  | S754_infinity _ => EncodeValueError
  | _ => Encodes
  end.

(** Dictionary keys must be [str], [int], [float], [bool] or [None]. *)
Definition key_status (k : pyval) : encode_status :=
  match k with
  | PNone | PBool _ | PInt _ | PStr _ => Encodes
  | PFloat f => float_status f
  | _ => EncodeTypeError
  end.

(** The encoder walks the value in order and stops at the first item it
    cannot encode: dates and datetimes are a [TypeError], a NaN or an
    infinity is a [ValueError]. *)
Fixpoint json_status (v : pyval) : encode_status :=
  match v with
  | PNone | PBool _ | PInt _ | PStr _ => Encodes
  | PFloat f => float_status f
  | PDate _ => EncodeTypeError
  | PDateTime _ _ => EncodeTypeError
  | PList items =>
      (fix each (l : list pyval) : encode_status :=
         match l with
         | [] => Encodes
         | x :: rest =>
             match json_status x with
             | Encodes => each rest
             | e => e
             end
         end) items
  | PDict items =>
      (fix each (l : list (pyval * pyval)) : encode_status :=
         match l with
         | [] => Encodes
         | (k, x) :: rest =>
             match key_status k with
             | Encodes =>
                 match json_status x with
                 | Encodes => each rest
                 | e => e
                 end
             | e => e
             end
         end) items
  end.

(** ** Exceptions, outcomes and the state of a run *)

Inductive exn : Type :=
| AttributeError
| TypeError
| KeyError (key : pystr)
| ValueError
| UnicodeDecodeError
| OSError
| YAMLError
| RequestException (message : pystr)
| SystemExit (code : Z).

(** [except ValueError]: [UnicodeDecodeError] is one of its subclasses. *)
Definition is_ValueError (e : exn) : bool :=
  match e with
  | ValueError | UnicodeDecodeError => true
  | _ => false
  end.

(** [except requests.RequestException]. *)
Definition is_RequestException (e : exn) : bool :=
  match e with
  | RequestException _ => true
  | _ => false
  end.

Inductive outcome (A : Type) : Type :=
| Return (a : A)
| Raise (e : exn).
Arguments Return {A} a.
Arguments Raise {A} e.

(** ** Paths and the file system *)

(** A path is the sequence of its [parts]; an absolute path starts with
    the part ["/"]. *)
Definition Path := list pystr.

Definition slash : codepoint := 47%N.
Definition dot : codepoint := 46%N.

Fixpoint split_slash (s : pystr) : list pystr :=
  match s with
  | [] => [[]]
  | c :: rest =>
      if N.eqb c slash then [] :: split_slash rest
      else match split_slash rest with
           | p :: ps => (c :: p) :: ps
           | [] => [[c]]
           end
  end.

(** [Path(s)]: empty parts and ["."] parts are dropped. *)
Definition Path_of_str (s : pystr) : Path :=
  (match s with
   | c :: _ => if N.eqb c slash then [[slash]] else []
   | [] => []
   end)
  ++ filter (fun p => negb (pystr_eqb p []) && negb (pystr_eqb p [dot]))
       (split_slash s).

(** [str(path)]. *)
Definition path_str (p : Path) : pystr :=
  match p with
  | [] => [dot]
  | first :: rest =>
      if pystr_eqb first [slash] then slash :: py_join [slash] rest
      else py_join [slash] p
  end.

(** [path.name]: the last part, empty for the root and for ["."]. *)
Definition path_name (p : Path) : pystr :=
  let n := last p [] in
  if pystr_eqb n [slash] then [] else n.

(** [s.rfind(c)], [None] standing for -1. *)
Fixpoint rfind (c : codepoint) (s : pystr) : option nat :=
  match s with
  | [] => None
  | d :: rest =>
      match rfind c rest with
      | Some i => Some (S i)
      | None => if N.eqb d c then Some 0 else None
      end
  end.

(** The position of the dot that starts the suffix: the last dot of the
    name, when it is neither the first nor the last character. *)
Definition suffix_start (name : pystr) : option nat :=
  match rfind dot name with
  | Some i => if Nat.ltb 0 i && Nat.ltb i (length name - 1) then Some i else None
  | None => None
  end.

(** [path.suffix]. *)
Definition path_suffix (p : Path) : pystr :=
  match suffix_start (path_name p) with
  | Some i => skipn i (path_name p)
  | None => []
  end.

(** [path.stem]. *)
Definition path_stem (p : Path) : pystr :=
  match suffix_start (path_name p) with
  | Some i => firstn i (path_name p)
  | None => path_name p
  end.

Fixpoint path_eqb (p q : Path) : bool :=
  match p, q with
  | [], [] => true
  | a :: p', b :: q' => pystr_eqb a b && path_eqb p' q'
  | _, _ => false
  end.

(** What is at a path: a directory, or a regular file, which stands for
    what [frontmatter.load] makes of it: the front-matter mapping and the
    body, or the exception the loader raises on it. *)
Inductive Node : Type :=
| Directory
| RegularFile (loaded : outcome (pydict * pystr)).

Definition FileSystem := list (Path * Node).

Fixpoint fs_lookup (fs : FileSystem) (p : Path) : option Node :=
  match fs with
  | [] => None
  | (q, n) :: rest => if path_eqb q p then Some n else fs_lookup rest p
  end.

(** [strip_base base p] is what follows [base] in [p]. *)
Fixpoint strip_base (base p : Path) : option Path :=
  match base, p with
  | [], _ => Some p
  | a :: base', b :: p' => if pystr_eqb a b then strip_base base' p' else None
  | _ :: _, [] => None
  end.

(** The pattern [*.md] on a name. *)
Definition matches_star_md (name : pystr) : bool :=
  match rev name with
  | d :: m :: o :: _ => N.eqb d 100 && N.eqb m 109 && N.eqb o dot
  | _ => false
  end.

(** [path.glob('**/*.md')]: everything below [base], at any depth, whose
    name matches [*.md]. *)
Definition glob_md (fs : FileSystem) (base : Path) : list Path :=
  map fst
    (filter (fun entry =>
               match strip_base base (fst entry) with
               | Some (part :: more) => matches_star_md (last (part :: more) [])
               | _ => false
               end) fs).

(** The order of strings (by code point) and of paths (by parts). *)
Fixpoint pystr_compare (s t : pystr) : comparison :=
  match s, t with
  | [], [] => Eq
  | [], _ :: _ => Lt
  | _ :: _, [] => Gt
  | c :: s', d :: t' =>
      match N.compare c d with
      | Eq => pystr_compare s' t'
      | r => r
      end
  end.

Fixpoint path_compare (p q : Path) : comparison :=
  match p, q with
  | [], [] => Eq
  | [], _ :: _ => Lt
  | _ :: _, [] => Gt
  | a :: p', b :: q' =>
      match pystr_compare a b with
      | Eq => path_compare p' q'
      | r => r
      end
  end.

Definition path_leb (p q : Path) : bool :=
  match path_compare p q with
  | Gt => false
  | _ => true
  end.

Fixpoint insert_path (p : Path) (l : list Path) : list Path :=
  match l with
  | [] => [p]
  | q :: rest => if path_leb p q then p :: l else q :: insert_path p rest
  end.

(** [sorted(paths)], a stable sort. *)
Definition sorted_paths (l : list Path) : list Path :=
  fold_right insert_path [] l.

(** ** The network *)

Inductive http_method := GET | POST.

Record Request := {
  method : http_method;
  url : pystr;
  headers : list (pystr * pystr);
  json_body : option pyval;
  timeout : N
}.

(** A response of the [requests] library: [json] is what
    [response.json()] returns, [None] when it raises [ValueError]. *)
Record Response := {
  status_code : Z;
  reason : pystr;
  response_url : pystr;
  content_type : option pystr;
  text : pystr;
  json : option pyval
}.

Inductive NetResult : Type :=
| Responds (r : Response)
| Fails (message : pystr).

(** ** The environment and the state *)

(** What a run depends on and does not change: the configuration read at
    start-up, the remote server (its answer may depend on the requests it
    has seen), the clock, the files, and the library functions that stay
    abstract (the markdown converter, [str] of a value that is not a
    scalar, the usage text of the argument parser). *)
Record Env := {
  API_URL : pystr;
  API_KEY : pystr;
  server : list Request -> Request -> NetResult;
  clock : DateTime;
  files : FileSystem;
  md_convert : pystr -> pystr;
  py_repr : pyval -> pystr;
  help_text : pystr
}.

Record State := {
  stdout : list pystr;
  sent : list Request
}.

Definition M (A : Type) : Type := State -> outcome A * State.

Definition ret {A} (a : A) : M A := fun st => (Return a, st).
Definition raise {A} (e : exn) : M A := fun st => (Raise e, st).
Definition bind {A B} (c : M A) (k : A -> M B) : M B :=
  fun st =>
    match c st with
    | (Return a, st') => k a st'
    | (Raise e, st') => (Raise e, st')
    end.

Notation "x <- c1 ;; c2" := (bind c1 (fun x => c2))
  (at level 61, c1 at next level, right associativity).
Notation "c1 ;; c2" := (bind c1 (fun _ => c2))
  (at level 61, right associativity).

(** [try: c  except E as e: h e], [handles] telling the class. *)
Definition try_except {A} (c : M A) (handles : exn -> bool)
    (h : exn -> M A) : M A :=
  fun st =>
    match c st with
    | (Raise e, st') => if handles e then h e st' else (Raise e, st')
    | r => r
    end.

(** The computation sends no request. *)
Definition keeps_sent {A} (c : M A) : Prop :=
  forall st, sent (snd (c st)) = sent st.

(** The result of a computation and the requests it sends depend on the
    requests sent before, not on the lines printed before. *)
Definition oblivious {A} (c : M A) : Prop :=
  forall st1 st2,
    sent st1 = sent st2 ->
    fst (c st1) = fst (c st2) /\ sent (snd (c st1)) = sent (snd (c st2)).

(** [print(line)]. *)
Definition print (line : pystr) : M unit :=
  fun st => (Return tt, {| stdout := stdout st ++ [line]; sent := sent st |}).

(** The pieces of an f-string, put together. *)
Definition fstr (pieces : list pystr) : pystr := concat pieces.

Definition is_empty (s : pystr) : bool :=
  match s with
  | [] => true
  | _ => false
  end.

(** The marks of the success and failure lines. *)
Definition check_mark : pystr := [10003%N; space].
Definition cross_mark : pystr := [10007%N; space].

(** ** The program *)

(** Command-line arguments, as [argparse] hands them over. *)
Record Args := {
  arg_path : option pystr;
  arg_draft : bool;
  arg_list : bool;
  arg_delete : option pystr
}.

Section Program.
Context {U : Unicode}.
Variable E : Env.

(** [str(v)], as an f-string field formats a value. *)
Definition py_str (v : pyval) : pystr :=
  match v with
  | PStr s => s
  | PNone => lit "None"
  | PBool true => lit "True"
  | PBool false => lit "False"
  | PInt z => decimal_Z z
  | _ => py_repr E v
  end.

(** [d[key]]. *)
Definition dict_getitem (d : pydict) (key : pystr) : M pyval :=
  match dict_lookup d key with
  | Some v => ret v
  | None => raise (KeyError key)
  end.

(** *** The file system, the network *)

Definition path_is_file (p : Path) : bool :=
  match fs_lookup (files E) p with
  | Some (RegularFile _) => true
  | _ => false
  end.

Definition path_is_dir (p : Path) : bool :=
  match fs_lookup (files E) p with
  | Some Directory => true
  | _ => false
  end.

Definition path_exists (p : Path) : bool :=
  match fs_lookup (files E) p with
  | Some _ => true
  | None => false
  end.

(** [frontmatter.load(filepath)]. *)
Definition frontmatter_load (filepath : Path) : M (pydict * pystr) :=
  fun st =>
    match fs_lookup (files E) filepath with
    | Some (RegularFile loaded) => (loaded, st)
    | _ => (Raise OSError, st)
    end.

(** [requests.post] and [requests.get]: the JSON body is encoded first
    (a [TypeError] of the encoder is not wrapped, its [ValueError]
    becomes the library's [InvalidJSONError]), then the request goes
    out and the server answers or the transport fails. *)
Definition requests_send (req : Request) : M Response :=
  fun st =>
    let go :=
      let st' := {| stdout := stdout st; sent := sent st ++ [req] |} in
      match server E (sent st) req with
      | Responds r => (Return r, st')
      | Fails message => (Raise (RequestException message), st')
      end in
    match json_body req with
    | None => go
    | Some v =>
        match json_status v with
        | Encodes => go
        | EncodeTypeError => (Raise TypeError, st)
        | EncodeValueError =>
            (Raise (RequestException (lit "Out of range float values are not JSON compliant")), st)
        end
    end.

(** [response.json()]. *)
Definition response_json (r : Response) : M pyval :=
  match json r with
  | Some v => ret v
  | None => raise ValueError
  end.

(** [result.get(key)] and [result.get(key, default)] on a parsed body:
    only a dictionary has the method. *)
Definition result_get (result : pyval) (key : pystr) (default : pyval)
    : M pyval :=
  match result with
  | PDict d => ret (dict_get d key default)
  | _ => raise AttributeError
  end.

(** *** parse_markdown_file (lines 71-108) *)

(** The call [slugify(title)]: [text.lower()] exists on strings only. *)
Definition call_slugify (text : pyval) : M pystr :=
  match text with
  | PStr s => ret (slugify s)
  | _ => raise AttributeError
  end.

(** [_format_published_at] (lines 85-96). *)
Definition _format_published_at (value : pyval) : pystr :=
  match value with
  | PDateTime t utcoffset => datetime_isoformat t utcoffset
  | PDate d => date_isoformat d
  | PNone => strftime_seconds (clock E)
  | PStr [] => strftime_seconds (clock E)
  | _ => py_str value
  end.

Definition parse_markdown_file (filepath : Path) : M pydict :=
  post <- frontmatter_load filepath ;;
  let html_content := md_convert E (snd post) in
  let metadata := fst post in
  let title :=
    dict_get metadata (lit "title")
      (PStr (py_title (replace_char hyphen space (path_stem filepath)))) in
  (* the default of [metadata.get('slug', ...)] is evaluated before the call *)
  default_slug <- call_slugify title ;;
  let slug := dict_get metadata (lit "slug") (PStr default_slug) in
  ret [ (PStr (lit "slug"), slug);
        (PStr (lit "title"), title);
        (PStr (lit "content"), PStr html_content);
        (PStr (lit "excerpt"), dict_get metadata (lit "excerpt") (PStr []));
        (PStr (lit "category"),
           dict_get metadata (lit "category") (PStr (lit "general")));
        (PStr (lit "tags"), dict_get metadata (lit "tags") (PList []));
        (PStr (lit "featured_image"),
           dict_get metadata (lit "featured_image") PNone);
        (PStr (lit "is_published"),
           dict_get metadata (lit "published") (PBool true));
        (PStr (lit "published_at"),
           PStr (_format_published_at (dict_get metadata (lit "date") PNone))) ].

(** *** publish_post (lines 111-154) *)

Definition create_url : pystr := fstr [API_URL E; lit "?action=create"].

Definition create_request (post_data : pydict) : Request :=
  {| method := POST;
     url := create_url;
     headers := [ (lit "Content-Type", lit "application/json");
                  (lit "X-API-KEY", API_KEY E) ];
     json_body := Some (PDict post_data);
     timeout := 30 |}.

(** The body snippet of the diagnostics:
    [snippet if snippet else '<empty response>']. *)
Definition body_snippet (r : Response) : pystr :=
  let body := strip (text r) in
  let snippet := py_prefix 800 body in
  if is_empty snippet then lit "<empty response>" else snippet.

Definition http_line (prefix : pystr) (r : Response) : pystr :=
  fstr [prefix; lit "HTTP: "; decimal_Z (status_code r); lit " "; reason r].

Definition response_content_type (r : Response) : pystr :=
  match content_type r with
  | Some t => t
  | None => []
  end.

(** [if draft: post_data['is_published'] = False]: the dictionary that
    goes out. *)
Definition outgoing_payload (post_data : pydict) (draft : bool) : pydict :=
  if draft then dict_set post_data (lit "is_published") (PBool false)
  else post_data.

Definition publish_post (post_data : pydict) (draft : bool) : M bool :=
  if is_empty (API_URL E) || is_empty (API_KEY E) then
    print (lit "Error: API_URL and BLOG_API_KEY (or DASHBOARD_API_KEY) must be set in .env") ;;
    ret false
  else
    let post_data := outgoing_payload post_data draft in
    sent_ <- try_except
               (response <- requests_send (create_request post_data) ;;
                ret (Some response))
               is_RequestException
               (fun e =>
                  match e with
                  | RequestException message =>
                      print (fstr [cross_mark; lit "Network error: "; message])
                  | _ => ret tt
                  end ;;
                  ret None) ;;
    match sent_ with
    | None => ret false
    | Some response =>
        parsed <- try_except
                    (result <- response_json response ;; ret (Some result))
                    is_ValueError
                    (fun _ =>
                       title <- dict_getitem post_data (lit "title") ;;
                       print (fstr [cross_mark;
                                    lit "Invalid response while publishing: ";
                                    py_str title]) ;;
                       print (http_line (lit "  ") response) ;;
                       print (fstr [lit "  URL: "; response_url response]) ;;
                       print (fstr [lit "  Content-Type: ";
                                    response_content_type response]) ;;
                       print (fstr [lit "  Body: "; body_snippet response]) ;;
                       ret None) ;;
        match parsed with
        | None => ret false
        | Some result =>
            ok <- (if Z.eqb (status_code response) 200
                   then success <- result_get result (lit "success") PNone ;;
                        ret (py_truthy success)
                   else ret false) ;;
            if ok then
              (* [status.capitalize()] of "draft" and "published" *)
              let status :=
                if draft
                   || negb (py_truthy
                              (dict_get post_data (lit "is_published") PNone))
                then lit "Draft" else lit "Published" in
              title <- dict_getitem post_data (lit "title") ;;
              slug <- dict_getitem post_data (lit "slug") ;;
              print (fstr [check_mark; status; lit ": "; py_str title;
                           lit " ("; py_str slug; lit ")"]) ;;
              ret true
            else
              title <- dict_getitem post_data (lit "title") ;;
              print (fstr [cross_mark; lit "Failed: "; py_str title]) ;;
              print (http_line (lit "  ") response) ;;
              error <- result_get result (lit "error")
                         (PStr (lit "Unknown error")) ;;
              print (fstr [lit "  Error: "; py_str error]) ;;
              ret false
        end
    end.

(** *** delete_post (lines 157-192) *)

Definition delete_request (slug : pystr) : Request :=
  {| method := POST;
     url := fstr [API_URL E; lit "?action=delete&slug="; slug];
     headers := [ (lit "X-API-KEY", API_KEY E) ];
     json_body := None;
     timeout := 30 |}.

Definition delete_post (slug : pystr) : M bool :=
  if is_empty (API_URL E) || is_empty (API_KEY E) then
    print (lit "Error: API_URL and BLOG_API_KEY must be set in .env") ;;
    ret false
  else
    sent_ <- try_except
               (response <- requests_send (delete_request slug) ;;
                ret (Some response))
               is_RequestException
               (fun e =>
                  match e with
                  | RequestException message =>
                      print (fstr [cross_mark; lit "Network error: "; message])
                  | _ => ret tt
                  end ;;
                  ret None) ;;
    match sent_ with
    | None => ret false
    | Some response =>
        parsed <- try_except
                    (result <- response_json response ;; ret (Some result))
                    is_ValueError
                    (fun _ =>
                       print (fstr [cross_mark;
                                    lit "Invalid response while deleting: ";
                                    slug]) ;;
                       print (http_line (lit "  ") response) ;;
                       print (fstr [lit "  URL: "; response_url response]) ;;
                       print (fstr [lit "  Content-Type: ";
                                    response_content_type response]) ;;
                       print (fstr [lit "  Body: "; body_snippet response]) ;;
                       ret None) ;;
        match parsed with
        | None => ret false
        | Some result =>
            ok <- (if Z.eqb (status_code response) 200
                   then success <- result_get result (lit "success") PNone ;;
                        ret (py_truthy success)
                   else ret false) ;;
            if ok then
              print (fstr [check_mark; lit "Deleted: "; slug]) ;;
              ret true
            else
              print (fstr [cross_mark; lit "Failed to delete: "; slug]) ;;
              print (http_line (lit "  ") response) ;;
              error <- result_get result (lit "error")
                         (PStr (lit "Unknown error")) ;;
              print (fstr [lit "  Error: "; py_str error]) ;;
              ret false
        end
    end.

(** *** list_posts (lines 195-237) *)

Definition list_request : Request :=
  {| method := GET;
     url := fstr [API_URL E; lit "?action=posts&limit=100"];
     headers := [];
     json_body := None;
     timeout := 30 |}.

(** The statements of lines 222-237 (the table of posts, the total, the
    [error] field) are indented under the [except ValueError] handler
    and follow its [return]: no path of the function reaches them.
    After the [try] statement the function body ends, so a body that
    parses as JSON is bound to [result] and the function returns. *)
Definition list_posts : M unit :=
  if is_empty (API_URL E) then
    print (lit "Error: API_URL must be set in .env")
  else
    sent_ <- try_except
               (response <- requests_send list_request ;;
                ret (Some response))
               is_RequestException
               (fun e =>
                  match e with
                  | RequestException message =>
                      print (fstr [lit "Network error: "; message])
                  | _ => ret tt
                  end ;;
                  ret None) ;;
    match sent_ with
    | None => ret tt
    | Some response =>
        try_except
          (result <- response_json response ;; ret tt)
          is_ValueError
          (fun _ =>
             print (lit "Error: server returned non-JSON response") ;;
             print (http_line [] response) ;;
             print (fstr [lit "URL: "; response_url response]) ;;
             print (fstr [lit "Content-Type: ";
                          response_content_type response]) ;;
             print (fstr [lit "Body: "; body_snippet response]) ;;
             ret tt)
    end.

(** *** process_path (lines 240-263) *)

(** [path.suffix.lower() in ['.md', '.markdown']]. *)
Definition is_markdown_suffix (path : Path) : bool :=
  let suffix := py_lower (path_suffix path) in
  pystr_eqb suffix (lit ".md") || pystr_eqb suffix (lit ".markdown").

(** The loop over the sorted files of a directory, with the two
    counters it updates. *)
Fixpoint publish_each (md_files : list Path) (draft : bool)
    (success failed : nat) : M (nat * nat) :=
  match md_files with
  | [] => ret (success, failed)
  | md_file :: rest =>
      post_data <- parse_markdown_file md_file ;;
      ok <- publish_post post_data draft ;;
      if ok then publish_each rest draft (success + 1) failed
      else publish_each rest draft success (failed + 1)
  end.

(** The results of the calls of [publish_post] that the loop makes over
    [md_files], in order, from the state [st]; an exception of a turn is
    the last entry, because the loop ends there. *)
Fixpoint batch_results (md_files : list Path) (draft : bool) (st : State)
    : list (outcome bool) :=
  match md_files with
  | [] => []
  | md_file :: rest =>
      match (post_data <- parse_markdown_file md_file ;;
             publish_post post_data draft) st with
      | (Return ok, st') => Return ok :: batch_results rest draft st'
      | (Raise e, _) => [Raise e]
      end
  end.

Definition process_path (path : Path) (draft : bool) : M (nat * nat) :=
  let success := 0 in
  let failed := 0 in
  if path_is_file path then
    if is_markdown_suffix path then
      post_data <- parse_markdown_file path ;;
      ok <- publish_post post_data draft ;;
      if ok then ret (success + 1, failed) else ret (success, failed + 1)
    else
      print (fstr [lit "Skipping non-markdown file: "; path_str path]) ;;
      ret (success, failed)
  else if path_is_dir path then
    publish_each (sorted_paths (glob_md (files E) path)) draft success failed
  else
    ret (success, failed).

(** *** main (lines 266-327) *)

Definition option_truthy (o : option pystr) : bool :=
  match o with
  | Some (_ :: _) => true
  | _ => false
  end.

Definition main (args : Args) : M unit :=
  if arg_list args then
    list_posts
  else if option_truthy (arg_delete args) then
    match arg_delete args with
    | Some slug => delete_post slug ;; ret tt
    | None => ret tt
    end
  else
    match arg_path args with
    | Some (c :: p) =>
        let path := Path_of_str (c :: p) in
        if negb (path_exists path) then
          print (fstr [lit "Error: Path not found: "; path_str path]) ;;
          raise (SystemExit 1)
        else
          print (fstr [lit "Publishing ";
                       if arg_draft args then lit "draft" else lit "post";
                       lit "(s) from: "; path_str path; [10%N]]) ;;
          counts <- process_path path (arg_draft args) ;;
          let (success, failed) := counts in
          print (fstr [[10%N]; lit "Results: "; decimal (N.of_nat success);
                       lit " published, "; decimal (N.of_nat failed);
                       lit " failed"]) ;;
          if Nat.ltb 0 failed then raise (SystemExit 1) else ret tt
    | _ =>
        print (help_text E)
    end.
End Program.

(** The exit status of the process after [main]: 0 when it returns, the
    code of [sys.exit], and 1 when another exception reaches the top. *)
Definition exit_status (r : outcome unit) : Z :=
  match r with
  | Return _ => 0
  | Raise (SystemExit code) => code
  | Raise _ => 1
  end.

Definition initial : State := {| stdout := []; sent := [] |}.

(** ** Configuration (lines 43-48) *)

(** The environment variables, after [load_dotenv()]. *)
Definition Environ := list (pystr * pystr).

Fixpoint environ_lookup (environ : Environ) (name : pystr) : option pystr :=
  match environ with
  | [] => None
  | (k, v) :: rest =>
      if pystr_eqb k name then Some v else environ_lookup rest name
  end.

(** [os.getenv(name, default)]. *)
Definition os_getenv (environ : Environ) (name default : pystr) : pystr :=
  match environ_lookup environ name with
  | Some v => v
  | None => default
  end.

Fixpoint starts_with (prefix s : pystr) : bool :=
  match prefix, s with
  | [], _ => true
  | a :: prefix', c :: s' => N.eqb a c && starts_with prefix' s'
  | _ :: _, [] => false
  end.

(** [s.replace(old, new)] for an [old] that is not empty: the
    occurrences are taken from left to right and do not overlap.  [skip]
    counts the characters of the occurrence just replaced that are still
    to be passed over. *)
Fixpoint replace_from (old new : pystr) (skip : nat) (s : pystr) : pystr :=
  match s with
  | [] => []
  | c :: rest =>
      match skip with
      | S k => replace_from old new k rest
      | 0 =>
          if starts_with old s
          then new ++ replace_from old new (length old - 1) rest
          else c :: replace_from old new 0 rest
      end
  end.

(** [s.replace(old, new)]; an empty [old] matches before every character
    and at the end. *)
Definition str_replace (old new s : pystr) : pystr :=
  match old with
  | [] => new ++ concat (map (fun c => c :: new) s)
  | _ => replace_from old new 0 s
  end.

(** The two module-level settings, read once at start-up. *)
Definition configured_API_URL (environ : Environ) : pystr :=
  str_replace (lit "/currency.php") (lit "/blog.php")
    (os_getenv environ (lit "DASHBOARD_API_URL") []).

Definition configured_API_KEY (environ : Environ) : pystr :=
  os_getenv environ (lit "BLOG_API_KEY")
    (os_getenv environ (lit "DASHBOARD_API_KEY") []).

(** The environment of a run whose settings come from [environ]. *)
Definition load_config (environ : Environ) (E : Env) : Env :=
  {| API_URL := configured_API_URL environ;
     API_KEY := configured_API_KEY environ;
     server := server E;
     clock := clock E;
     files := files E;
     md_convert := md_convert E;
     py_repr := py_repr E;
     help_text := help_text E |}.

(** ** A sample environment

    Concrete files, servers and a clock, on which the program is run in
    the examples below. *)

Definition sample_clock : DateTime :=
  {| on_date := {| year := 2026; month := 11; day := 3 |};
     hour := 22; minute := 18; second := 5; microsecond := 0 |}.

Definition sample_env (server : list Request -> Request -> NetResult)
    (files : FileSystem) : Env :=
  {| API_URL := lit "https://example.com/blog.php";
     API_KEY := lit "secret";
     server := server;
     clock := sample_clock;
     files := files;
     md_convert := fun body => lit "<p>" ++ body ++ lit "</p>";
     py_repr := fun _ => lit "<object>";
     help_text := lit "usage: publish_blog.py [-h] [--draft] [--list] [--delete SLUG] [path]" |}.

(** A response with status 200 whose body parses as [body]. *)
Definition json_response (body : pyval) : Response :=
  {| status_code := 200;
     reason := lit "OK";
     response_url := lit "https://example.com/blog.php";
     content_type := Some (lit "application/json");
     text := lit "(json)";
     json := Some body |}.

(** A server that answers every request with the same body. *)
Definition constant_server (body : pyval)
    : list Request -> Request -> NetResult :=
  fun _ _ => Responds (json_response body).

Definition success_body : pyval :=
  PDict [(PStr (lit "success"), PBool true)].


(** A file without front matter, and one whose front matter is
    [title: ''].  *)
Definition my_article : Path := [lit "posts"; lit "my-article.md"].
Definition untitled : Path := [lit "posts"; lit "untitled.md"].

Definition article_files : FileSystem :=
  [ ([lit "posts"], Directory);
    (my_article, RegularFile (Return ([], lit "Hello")));
    (untitled,
     RegularFile (Return ([(PStr (lit "title"), PStr [])], lit "Hello"))) ].



(** The record that [parse_markdown_file] makes of [my_article] under
    the sample clock. *)
Definition my_article_record : pydict :=
  [ (PStr (lit "slug"), PStr (lit "my-article"));
    (PStr (lit "title"), PStr (lit "My Article"));
    (PStr (lit "content"), PStr (lit "<p>Hello</p>"));
    (PStr (lit "excerpt"), PStr []);
    (PStr (lit "category"), PStr (lit "general"));
    (PStr (lit "tags"), PList []);
    (PStr (lit "featured_image"), PNone);
    (PStr (lit "is_published"), PBool true);
    (PStr (lit "published_at"), PStr (lit "2026-11-03 22:18:05")) ].

(** A server that accepts every post, and one whose answer is the JSON
    array [[]] with status 200. *)
Definition accepting_env : Env :=
  sample_env (constant_server success_body) article_files.


(** A server whose list of posts has one post. *)
Definition posts_body : pyval :=
  PDict [ (PStr (lit "posts"),
           PList [ PDict [ (PStr (lit "slug"), PStr (lit "my-article"));
                           (PStr (lit "title"), PStr (lit "My Article"));
                           (PStr (lit "category"), PStr (lit "general"));
                           (PStr (lit "published_at"),
                            PStr (lit "2024-03-01 09:00:00")) ] ]) ].

Definition listing_env : Env :=
  sample_env (constant_server posts_body) article_files.

(** A file that is no markdown file (and no text file either). *)
Definition notes_env : Env :=
  sample_env (constant_server success_body)
    [ ([lit "notes.txt"], RegularFile (Raise UnicodeDecodeError)) ].

Definition notes_args : Args :=
  {| arg_path := Some (lit "notes.txt");
     arg_draft := false;
     arg_list := false;
     arg_delete := None |}.

(** A directory with four markdown files, and a server that refuses the
    slug [c] as a duplicate. *)
Definition plain_file : Node := RegularFile (Return ([], lit "Hello")).

Definition four_files : FileSystem :=
  [ ([lit "posts"], Directory);
    ([lit "posts"; lit "d.md"], plain_file);
    ([lit "posts"; lit "b.md"], plain_file);
    ([lit "posts"; lit "a.md"], plain_file);
    ([lit "posts"; lit "c.md"], plain_file) ].

Definition duplicate_body : pyval :=
  PDict [ (PStr (lit "success"), PBool false);
          (PStr (lit "error"), PStr (lit "duplicate slug")) ].

Definition refusing_c : list Request -> Request -> NetResult :=
  fun _ req =>
    match json_body req with
    | Some (PDict d) =>
        match dict_lookup d (lit "slug") with
        | Some (PStr slug) =>
            if pystr_eqb slug (lit "c")
            then Responds (json_response duplicate_body)
            else Responds (json_response success_body)
        | _ => Responds (json_response success_body)
        end
    | _ => Responds (json_response success_body)
    end.

Definition four_env : Env := sample_env refusing_c four_files.

Definition posts_args : Args :=
  {| arg_path := Some (lit "posts");
     arg_draft := false;
     arg_list := false;
     arg_delete := None |}.


(** The keys whose values [parse_markdown_file] takes from the front
    matter as they are. *)
Definition passed_through : list pystr :=
  [ lit "slug"; lit "excerpt"; lit "category"; lit "tags";
    lit "featured_image"; lit "is_published" ].




(** A directory whose second file is not a text file. *)
Definition mixed_env : Env :=
  sample_env (constant_server success_body)
    [ ([lit "posts"], Directory);
      ([lit "posts"; lit "a.md"], plain_file);
      ([lit "posts"; lit "b.md"], RegularFile (Raise UnicodeDecodeError));
      ([lit "posts"; lit "c.md"], plain_file) ].

(** Environment variables in which [BLOG_API_KEY] is set, and empty. *)
Definition masked_environ : Environ :=
  [ (lit "DASHBOARD_API_URL", lit "https://example.com/api/currency.php");
    (lit "DASHBOARD_API_KEY", lit "dashboard-secret");
    (lit "BLOG_API_KEY", []) ].

(* ================================================================== *)
(** * Part II: properties *)
(* ================================================================== *)

Example slugify_hello :
  slugify (U := ascii_unicode) (lit "Hello, World!") = lit "hello-world".
Proof. reflexivity. Qed.

(** ** slugify *)

Section SlugifyFacts.
Context {U : Unicode}.

Lemma pystr_eqb_refl (s : pystr) : pystr_eqb s s = true.
Proof.
  induction s as [|c s IH]; simpl; [reflexivity|].
  now rewrite N.eqb_refl, IH.
Qed.

Lemma pystr_eqb_eq (s t : pystr) : pystr_eqb s t = true <-> s = t.
Proof.
  split; [|intros ->; apply pystr_eqb_refl].
  revert t; induction s as [|c s IH]; intros [|d t]; simpl;
    try discriminate; [reflexivity|].
  intros H; apply andb_true_iff in H as [Hc Hs].
  apply N.eqb_eq in Hc; subst d. now rewrite (IH t Hs).
Qed.

Lemma lstrip_incl (s : pystr) (c : codepoint) :
  In c (lstrip s) -> In c s.
Proof.
  induction s as [|d s IH]; simpl; [tauto|].
  destruct (py_isspace d); simpl; tauto.
Qed.

Lemma strip_incl (s : pystr) (c : codepoint) :
  In c (strip s) -> In c s.
Proof.
  unfold strip, rstrip. intros H.
  apply lstrip_incl. apply in_rev in H.
  apply lstrip_incl in H. now apply in_rev in H.
Qed.

Lemma lstrip_no_space (s : pystr) :
  (forall c, In c s -> py_isspace c = false) -> lstrip s = s.
Proof.
  destruct s as [|d s]; simpl; [reflexivity|].
  intros H. now rewrite (H d (or_introl eq_refl)).
Qed.

Lemma strip_no_space (s : pystr) :
  (forall c, In c s -> py_isspace c = false) -> strip s = s.
Proof.
  intros H. unfold strip, rstrip.
  rewrite (lstrip_no_space s H).
  rewrite lstrip_no_space; [apply rev_involutive|].
  intros c Hc. apply H. now apply in_rev.
Qed.

Lemma filter_all (f : codepoint -> bool) (s : pystr) :
  (forall c, In c s -> f c = true) -> filter f s = s.
Proof.
  induction s as [|d s IH]; simpl; [reflexivity|].
  intros H. rewrite (H d (or_introl eq_refl)).
  f_equal. apply IH. intros c Hc. apply H. now right.
Qed.

Lemma slug_sep_hyphen : slug_sep hyphen = true.
Proof. reflexivity. Qed.

Lemma slug_keep_hyphen : slug_keep hyphen = true.
Proof. unfold slug_keep. rewrite N.eqb_refl. apply orb_true_r. Qed.

(** A character of the collapsed text is the inserted hyphen or a
    character of the input outside the separator class. *)
Lemma collapse_runs_in (b : bool) (s : pystr) (c : codepoint) :
  In c (collapse_runs b s) ->
  c = hyphen \/ (In c s /\ slug_sep c = false).
Proof.
  revert b; induction s as [|d s IH]; intros b; simpl; [tauto|].
  destruct (slug_sep d) eqn:Hd.
  - destruct b; simpl; intros H.
    + destruct (IH _ H) as [?|[? ?]]; auto.
    + destruct H as [<-|H]; [now left|].
      destruct (IH _ H) as [?|[? ?]]; auto.
  - simpl. intros [<-|H]; [right; auto|].
    destruct (IH _ H) as [?|[? ?]]; auto.
Qed.

(** After a run, the text goes on with a character that is no
    separator. *)
Lemma collapse_runs_true_head (s : pystr) :
  match collapse_runs true s with
  | c :: _ => slug_sep c = false
  | [] => True
  end.
Proof.
  induction s as [|d s IH]; simpl; [exact I|].
  destruct (slug_sep d) eqn:Hd; [exact IH|exact Hd].
Qed.

Lemma collapse_runs_single (b : bool) (s : pystr) :
  single_hyphens (collapse_runs b s) = true.
Proof.
  revert b; induction s as [|d s IH]; intros b; simpl; [reflexivity|].
  destruct (slug_sep d) eqn:Hd.
  - destruct b; [apply IH|].
    simpl. rewrite IH, andb_true_r.
    pose proof (collapse_runs_true_head s) as Hh.
    destruct (collapse_runs true s) as [|e r]; [reflexivity|].
    destruct (N.eqb e hyphen) eqn:He.
    + apply N.eqb_eq in He; subst e. now rewrite slug_sep_hyphen in Hh.
    + unfold hyphen in *. simpl. now rewrite ?He, ?andb_false_r.
  - simpl. rewrite IH, andb_true_r.
    destruct (collapse_runs false s) as [|e r]; [reflexivity|].
    destruct (N.eqb d hyphen) eqn:He.
    + apply N.eqb_eq in He; subst d. now rewrite slug_sep_hyphen in Hd.
    + reflexivity.
Qed.

(** Collapsing a collapsed text changes nothing. *)
Lemma collapse_runs_again (s : pystr) :
  collapse_runs true (collapse_runs true s) = collapse_runs true s
  /\ collapse_runs false (collapse_runs false s) = collapse_runs false s
  /\ collapse_runs false (collapse_runs true s) = collapse_runs true s.
Proof.
  induction s as [|d s (TT & FF & FT)]; simpl; [auto|].
  destruct (slug_sep d) eqn:Hd; simpl.
  - rewrite ?slug_sep_hyphen. now rewrite ?TT, ?FT.
  - rewrite ?Hd. now rewrite ?FF.
Qed.

(** Where the characters of a slug come from. *)
Lemma slugify_in (s : pystr) (c : codepoint) :
  In c (slugify s) ->
  c = hyphen
  \/ (In c (py_lower s) /\ slug_keep c = true /\ slug_sep c = false).
Proof.
  unfold slugify, strip_unwanted. intros H.
  apply collapse_runs_in in H as [?|[H Hsep]]; [now left|right].
  apply filter_In in H as [H Hkeep].
  apply strip_incl in H. auto.
Qed.

Lemma not_sep_is_word (c : codepoint) :
  slug_keep c = true -> slug_sep c = false ->
  is_word c = true /\ py_isspace c = false /\ c <> hyphen.
Proof.
  unfold slug_keep, slug_sep. intros Hk Hs.
  apply orb_false_iff in Hs as [Hh Hsp].
  rewrite Hh, Hsp, !orb_false_r in Hk.
  repeat split; auto. intros ->. now rewrite N.eqb_refl in Hh.
Qed.

Hypothesis hyphen_not_space : py_isspace hyphen = false.

(** Lower-casing leaves alone a text made of characters that
    lower-casing produced, and of hyphens. *)
Hypothesis lower_fixed :
  forall s t : pystr,
    (forall c, In c t -> c = hyphen \/ In c (py_lower s)) ->
    py_lower t = t.

Lemma slugify_lower (s : pystr) : py_lower (slugify s) = slugify s.
Proof.
  apply (lower_fixed s). intros c H.
  apply slugify_in in H as [?|[? _]]; auto.
Qed.

Lemma slugify_no_space (s : pystr) (c : codepoint) :
  In c (slugify s) -> py_isspace c = false.
Proof.
  intros H. apply slugify_in in H as [->|(_ & Hk & Hs)]; [assumption|].
  now apply not_sep_is_word.
Qed.

(** C6. Slug derivation is idempotent: for every string [s],
    [slugify (slugify s)] is [slugify s]; a string that is already a
    slug is returned unchanged. *)
Theorem slugify_idempotent (s : pystr) :
  slugify (slugify s) = slugify s.
Proof.
  unfold slugify at 1.
  rewrite slugify_lower.
  rewrite (strip_no_space (slugify s) (slugify_no_space s)).
  unfold strip_unwanted. rewrite filter_all.
  - unfold slugify. apply collapse_runs_again.
  - intros c H. apply slugify_in in H as [->|(_ & Hk & _)];
      [apply slug_keep_hyphen|assumption].
Qed.

(** C4, as the code has it. For every title, the slug holds only word
    characters (letters, digits and the underscore, none of them a
    space) and hyphens, never two hyphens in a row, and lower-casing
    leaves it unchanged.  Nothing is said of its two ends. *)
Theorem slugify_shape (title : pystr) :
  (forall c, In c (slugify title) ->
     c = hyphen \/ (is_word c = true /\ py_isspace c = false))
  /\ single_hyphens (slugify title) = true
  /\ py_lower (slugify title) = slugify title.
Proof.
  split; [|split].
  - intros c H. apply slugify_in in H as [?|(_ & Hk & Hs)]; [now left|].
    right. destruct (not_sep_is_word c Hk Hs) as (? & ? & _). auto.
  - apply collapse_runs_single.
  - apply slugify_lower.
Qed.
End SlugifyFacts.

(** *** The ASCII tables satisfy what the theorems assume *)

Lemma ascii_tolower_fixed (d : codepoint) :
  ascii_tolower (ascii_tolower d) = ascii_tolower d.
Proof.
  unfold ascii_tolower.
  destruct (ascii_isupper d) eqn:Hd; [|now rewrite Hd].
  unfold ascii_isupper in *.
  apply andb_true_iff in Hd as [H1 H2].
  apply N.leb_le in H1, H2.
  replace (N.leb (d + 32) 90) with false; [now rewrite andb_false_r|].
  symmetry. apply N.leb_gt. lia.
Qed.

Lemma ascii_lower_fixed :
  forall s t : pystr,
    (forall c, In c t -> c = hyphen \/ In c (py_lower (Unicode := ascii_unicode) s)) ->
    py_lower (Unicode := ascii_unicode) t = t.
Proof.
  intros s t H. simpl in *.
  rewrite <- (map_id t) at 2. apply map_ext_in.
  intros c Hc. destruct (H c Hc) as [->|Hin]; [reflexivity|].
  apply in_map_iff in Hin as (d & <- & _). apply ascii_tolower_fixed.
Qed.

Lemma ascii_hyphen_not_space :
  py_isspace (Unicode := ascii_unicode) hyphen = false.
Proof. reflexivity. Qed.

Lemma slugify_idempotent_witness :
  slugify (U := ascii_unicode)
    (slugify (U := ascii_unicode) (lit "Hello, World!"))
  = slugify (U := ascii_unicode) (lit "Hello, World!").
Proof.
  exact (slugify_idempotent (U := ascii_unicode) ascii_hyphen_not_space
           ascii_lower_fixed (lit "Hello, World!")).
Defined.

Lemma slugify_shape_witness :
  (forall c, In c (slugify (U := ascii_unicode) (lit "Hello_World !")) ->
     c = hyphen
     \/ (is_word (U := ascii_unicode) c = true
         /\ py_isspace (Unicode := ascii_unicode) c = false))
  /\ single_hyphens (slugify (U := ascii_unicode) (lit "Hello_World !")) = true
  /\ py_lower (Unicode := ascii_unicode)
       (slugify (U := ascii_unicode) (lit "Hello_World !"))
     = slugify (U := ascii_unicode) (lit "Hello_World !").
Proof.
  exact (slugify_shape (U := ascii_unicode) ascii_lower_fixed
           (lit "Hello_World !")).
Defined.

(** The title "Hello World !" has an uppercase letter, punctuation and
    internal whitespace; its slug ends with a hyphen.  The slug of
    "Hello_World" keeps the underscore. *)
Lemma slugify_shape_counterexample :
  existsb ascii_isupper (lit "Hello World !") = true
  /\ slugify (U := ascii_unicode) (lit "Hello World !") = lit "hello-world-"
  /\ spec_slug_shape (U := ascii_unicode)
       (slugify (U := ascii_unicode) (lit "Hello World !")) = false
  /\ slugify (U := ascii_unicode) (lit "Hello_World") = lit "hello_world"
  /\ spec_slug_shape (U := ascii_unicode)
       (slugify (U := ascii_unicode) (lit "Hello_World")) = false.
Proof. repeat split; reflexivity. Qed.

(** ** Dates as text *)

Lemma below_forallb (P : N -> bool) (k : nat) :
  forallb P (map N.of_nat (seq 0 k)) = true ->
  forall n, (n < N.of_nat k)%N -> P n = true.
Proof.
  intros H n Hn. rewrite forallb_forall in H. apply H.
  rewrite <- (N2Nat.id n). apply in_map. apply in_seq. lia.
Qed.

Lemma zero_pad_2_digits (n : N) :
  (n < 100)%N ->
  exists a b, zero_pad 2 n = [a; b]
              /\ ascii_isdigit a = true /\ ascii_isdigit b = true.
Proof.
  intros Hn.
  pose (P := fun n => match zero_pad 2 n with
                      | [a; b] => ascii_isdigit a && ascii_isdigit b
                      | _ => false
                      end).
  assert (HP : P n = true).
  { apply (below_forallb P 100); [vm_compute; reflexivity|exact Hn]. }
  unfold P in HP.
  destruct (zero_pad 2 n) as [|a [|b [|? ?]]]; try discriminate.
  apply andb_true_iff in HP as [? ?]. eauto.
Qed.

Lemma zero_pad_4_digits (n : N) :
  (n < 10000)%N ->
  exists a b c d, zero_pad 4 n = [a; b; c; d]
                  /\ forallb ascii_isdigit [a; b; c; d] = true.
Proof.
  intros Hn.
  pose (P := fun n => match zero_pad 4 n with
                      | [a; b; c; d] => forallb ascii_isdigit [a; b; c; d]
                      | _ => false
                      end).
  assert (HP : P n = true).
  { apply (below_forallb P (100 * 100)); [vm_compute; reflexivity|exact Hn]. }
  unfold P in HP.
  destruct (zero_pad 4 n) as [|a [|b [|c [|d [|? ?]]]]]; try discriminate.
  eauto 6.
Qed.

Lemma valid_date_bounds (d : Date) :
  valid_date d = true ->
  (year d < 10000 /\ month d < 100 /\ day d < 100)%N.
Proof.
  unfold valid_date. rewrite !andb_true_iff, !N.leb_le. lia.
Qed.


Lemma date_isoformat_shape (d : Date) :
  valid_date d = true -> shape_date (date_isoformat d) = true.
Proof.
  intros H. apply valid_date_bounds in H as (Hy & Hm & Hd).
  destruct (zero_pad_4_digits Hy) as (y1 & y2 & y3 & y4 & Ey & Dy).
  destruct (zero_pad_2_digits Hm) as (m1 & m2 & Em & Dm1 & Dm2).
  destruct (zero_pad_2_digits Hd) as (d1 & d2 & Ed & Dd1 & Dd2).
  unfold date_isoformat. rewrite Ey, Em, Ed. simpl in *.
  rewrite !andb_true_iff in Dy. destruct Dy as (-> & -> & -> & -> & _).
  now rewrite Dm1, Dm2, Dd1, Dd2.
Qed.

Lemma date_isoformat_length (d : Date) :
  valid_date d = true -> length (date_isoformat d) = 10.
Proof.
  intros H. apply date_isoformat_shape in H. unfold shape_date in H.
  destruct (date_isoformat d)
    as [|? [|? [|? [|? [|? [|? [|? [|? [|? [|? [|? ?]]]]]]]]]]];
    try discriminate.
  reflexivity.
Qed.






(** ** parse_markdown_file *)

Section ParseFacts.
Context {U : Unicode}.
Variable E : Env.

Lemma collapse_runs_false_nil (s : pystr) :
  collapse_runs false s = [] <-> s = [].
Proof.
  split; [|intros ->; reflexivity].
  destruct s as [|c s]; [reflexivity|]. simpl.
  destruct (slug_sep c); discriminate.
Qed.

Lemma filter_nil (f : codepoint -> bool) (s : pystr) :
  filter f s = [] <-> (forall c, In c s -> f c = false).
Proof.
  induction s as [|d s IH]; simpl; [tauto|].
  destruct (f d) eqn:Hd; split.
  - discriminate.
  - intros H. specialize (H d (or_introl eq_refl)). congruence.
  - intros H c [<-|Hc]; [assumption|]. now apply IH.
  - intros H. apply IH. intros c Hc. apply H. now right.
Qed.

(** A derived slug is empty exactly when the title, lower-cased and
    stripped, has no word character, no space and no hyphen. *)
Lemma slugify_nil (title : pystr) :
  slugify title = []
  <-> (forall c, In c (strip (py_lower title)) -> slug_keep c = false).
Proof.
  unfold slugify, strip_unwanted.
  rewrite collapse_runs_false_nil. apply filter_nil.
Qed.

Lemma path_stem_nonempty (p : Path) : path_name p <> [] -> path_stem p <> [].
Proof.
  unfold path_stem, suffix_start. intros Hn.
  destruct (rfind dot (path_name p)) as [i|]; [|assumption].
  destruct (Nat.ltb 0 i && Nat.ltb i (length (path_name p) - 1)) eqn:Hi;
    [|assumption].
  apply andb_true_iff in Hi as [Hi _]. apply Nat.ltb_lt in Hi.
  destruct (path_name p); [congruence|].
  destruct i; [lia|]. discriminate.
Qed.

Lemma replace_char_nonempty (a b : codepoint) (s : pystr) :
  s <> [] -> replace_char a b s <> [].
Proof. destruct s; [congruence|discriminate]. Qed.

(** C5, as the code has it. In the record of every accepted file the
    title is a string: the value of the front matter as it is written
    there, or, when the front matter has none, the title-cased file stem,
    which is not empty.  The slug is the value of the front matter as it
    is written there, or, when the front matter has none, the slug derived
    from the title, which is empty exactly when the lower-cased, stripped
    title has no word character, space or hyphen. *)
Theorem parse_markdown_file_title_slug (filepath : Path) (st st' : State)
    (record : pydict) :
  (forall s : pystr, s <> [] -> py_title s <> []) ->
  path_name filepath <> [] ->
  parse_markdown_file E filepath st = (Return record, st') ->
  exists (metadata : pydict) (body title : pystr),
    fs_lookup (files E) filepath = Some (RegularFile (Return (metadata, body)))
    /\ dict_lookup record (lit "title") = Some (PStr title)
    /\ match dict_lookup metadata (lit "title") with
       | Some v => v = PStr title
       | None =>
           title = py_title (replace_char hyphen space (path_stem filepath))
           /\ title <> []
       end
    /\ match dict_lookup metadata (lit "slug") with
       | Some v => dict_lookup record (lit "slug") = Some v
       | None =>
           dict_lookup record (lit "slug") = Some (PStr (slugify title))
           /\ (slugify title = []
               <-> forall c, In c (strip (py_lower title)) ->
                             slug_keep c = false)
       end.
Proof.
  intros Htitle Hname.
  unfold parse_markdown_file, bind, frontmatter_load.
  destruct (fs_lookup (files E) filepath) as [[|[[metadata body]|e]]|];
    try discriminate.
  cbv zeta. cbn [fst snd].
  remember (dict_get metadata (lit "title")
              (PStr (py_title (replace_char hyphen space (path_stem filepath)))))
    as tv eqn:Htv.
  destruct tv as [| | | |title| | | |]; cbn [call_slugify raise ret];
    try discriminate.
  intros H; injection H as <- <-.
  exists metadata, body, title.
  split; [reflexivity|]. split; [reflexivity|]. split.
  - unfold dict_get in Htv.
    destruct (dict_lookup metadata (lit "title")); [congruence|].
    injection Htv as ->. split; [reflexivity|].
    apply Htitle, replace_char_nonempty, path_stem_nonempty, Hname.
  - unfold dict_get.
    destruct (dict_lookup metadata (lit "slug")) eqn:Hs.
    + reflexivity.
    + split; [reflexivity|apply slugify_nil].
Qed.
End ParseFacts.

Lemma ascii_title_nonempty :
  forall s : pystr, s <> [] -> py_title (Unicode := ascii_unicode) s <> [].
Proof. intros [|c s] H; [congruence|discriminate]. Qed.

Lemma parse_markdown_file_title_slug_witness :
  exists (metadata : pydict) (body title : pystr),
    fs_lookup (files accepting_env) my_article
    = Some (RegularFile (Return (metadata, body)))
    /\ dict_lookup
         [ (PStr (lit "slug"), PStr (lit "my-article"));
           (PStr (lit "title"), PStr (lit "My Article"));
           (PStr (lit "content"), PStr (lit "<p>Hello</p>"));
           (PStr (lit "excerpt"), PStr []);
           (PStr (lit "category"), PStr (lit "general"));
           (PStr (lit "tags"), PList []);
           (PStr (lit "featured_image"), PNone);
           (PStr (lit "is_published"), PBool true);
           (PStr (lit "published_at"), PStr (lit "2026-11-03 22:18:05")) ]
         (lit "title")
       = Some (PStr title)
    /\ match dict_lookup metadata (lit "title") with
       | Some v => v = PStr title
       | None =>
           title = py_title (Unicode := ascii_unicode)
                     (replace_char hyphen space (path_stem my_article))
           /\ title <> []
       end
    /\ match dict_lookup metadata (lit "slug") with
       | Some v =>
           dict_lookup
             [ (PStr (lit "slug"), PStr (lit "my-article"));
               (PStr (lit "title"), PStr (lit "My Article"));
               (PStr (lit "content"), PStr (lit "<p>Hello</p>"));
               (PStr (lit "excerpt"), PStr []);
               (PStr (lit "category"), PStr (lit "general"));
               (PStr (lit "tags"), PList []);
               (PStr (lit "featured_image"), PNone);
               (PStr (lit "is_published"), PBool true);
               (PStr (lit "published_at"), PStr (lit "2026-11-03 22:18:05")) ]
             (lit "slug")
           = Some v
       | None =>
           dict_lookup
             [ (PStr (lit "slug"), PStr (lit "my-article"));
               (PStr (lit "title"), PStr (lit "My Article"));
               (PStr (lit "content"), PStr (lit "<p>Hello</p>"));
               (PStr (lit "excerpt"), PStr []);
               (PStr (lit "category"), PStr (lit "general"));
               (PStr (lit "tags"), PList []);
               (PStr (lit "featured_image"), PNone);
               (PStr (lit "is_published"), PBool true);
               (PStr (lit "published_at"), PStr (lit "2026-11-03 22:18:05")) ]
             (lit "slug")
           = Some (PStr (slugify (U := ascii_unicode) title))
           /\ (slugify (U := ascii_unicode) title = []
               <-> forall c,
                     In c (strip (U := ascii_unicode)
                             (py_lower (Unicode := ascii_unicode) title)) ->
                     slug_keep (U := ascii_unicode) c = false)
       end.
Proof.
  apply (parse_markdown_file_title_slug (U := ascii_unicode) accepting_env
           my_article initial (st' := initial)).
  - exact ascii_title_nonempty.
  - discriminate.
  - reflexivity.
Defined.

(** A file whose front matter is [title: ''] is accepted; its record has
    the empty string as title and as slug. *)
Lemma parse_markdown_file_counterexample :
  exists record : pydict,
    parse_markdown_file (U := ascii_unicode) accepting_env untitled initial
    = (Return record, initial)
    /\ dict_lookup record (lit "title") = Some (PStr [])
    /\ dict_lookup record (lit "slug") = Some (PStr []).
Proof. eexists. repeat split; reflexivity. Qed.

(** ** Dictionaries *)

Lemma dict_lookup_set_same (d : pydict) (key : pystr) (v : pyval) :
  dict_lookup (dict_set d key v) key = Some v.
Proof.
  induction d as [|[k w] d IH]; simpl.
  - now rewrite pystr_eqb_refl.
  - destruct k; simpl; try exact IH.
    destruct (pystr_eqb s key) eqn:Hk; simpl; rewrite Hk; [reflexivity|exact IH].
Qed.

Lemma dict_lookup_set_other (d : pydict) (key key' : pystr) (v : pyval) :
  pystr_eqb key key' = false ->
  dict_lookup (dict_set d key v) key' = dict_lookup d key'.
Proof.
  intros Hne. induction d as [|[k w] d IH]; simpl.
  - now rewrite Hne.
  - destruct k; simpl; try exact IH.
    destruct (pystr_eqb s key) eqn:Hk; simpl.
    + apply pystr_eqb_eq in Hk; subst s. now rewrite Hne.
    + now rewrite IH.
Qed.

(** ** Running a sequence *)

Lemma bind_print {B} (line : pystr) (k : unit -> M B) (st : State) :
  bind (print line) k st
  = k tt {| stdout := stdout st ++ [line]; sent := sent st |}.
Proof. reflexivity. Qed.

Lemma bind_returns {A B} (c : M A) (k : A -> M B) (st st' : State) (a : A) :
  c st = (Return a, st') -> bind c k st = k a st'.
Proof. intros H. unfold bind. now rewrite H. Qed.

Lemma bind_raises {A B} (c : M A) (k : A -> M B) (st st' : State) (e : exn) :
  c st = (Raise e, st') -> bind c k st = (Raise e, st').
Proof. intros H. unfold bind. now rewrite H. Qed.

(** ** What a computation does to the list of requests *)

Lemma keeps_ret {A} (a : A) : keeps_sent (ret a).
Proof. intros st; reflexivity. Qed.

Lemma keeps_raise {A} (e : exn) : keeps_sent (@raise A e).
Proof. intros st; reflexivity. Qed.

Lemma keeps_print (line : pystr) : keeps_sent (print line).
Proof. intros st; reflexivity. Qed.

Lemma keeps_bind {A B} (c : M A) (k : A -> M B) :
  keeps_sent c -> (forall a, keeps_sent (k a)) -> keeps_sent (bind c k).
Proof.
  intros Hc Hk st. unfold bind. specialize (Hc st).
  destruct (c st) as [[a|e] st1]; simpl in *; [|assumption].
  now rewrite Hk.
Qed.

Lemma keeps_try {A} (c : M A) (handles : exn -> bool) (h : exn -> M A) :
  keeps_sent c -> (forall e, keeps_sent (h e)) ->
  keeps_sent (try_except c handles h).
Proof.
  intros Hc Hh st. unfold try_except. specialize (Hc st).
  destruct (c st) as [[a|e] st1]; simpl in *; [assumption|].
  destruct (handles e); simpl; [now rewrite Hh|assumption].
Qed.

Lemma keeps_getitem (d : pydict) (key : pystr) :
  keeps_sent (dict_getitem d key).
Proof.
  unfold dict_getitem. destruct (dict_lookup d key);
    [apply keeps_ret|apply keeps_raise].
Qed.

Lemma keeps_result_get (result : pyval) (key : pystr) (default : pyval) :
  keeps_sent (result_get result key default).
Proof.
  destruct result; try apply keeps_raise. apply keeps_ret.
Qed.

Lemma keeps_response_json (r : Response) : keeps_sent (response_json r).
Proof.
  unfold response_json. destruct (json r); [apply keeps_ret|apply keeps_raise].
Qed.

Ltac keeps_step :=
  first
    [ apply keeps_ret | apply keeps_raise | apply keeps_print
    | apply keeps_getitem | apply keeps_result_get | apply keeps_response_json
    | apply keeps_bind; [|intros ?]
    | apply keeps_try; [|intros ?]
    | match goal with
      | |- keeps_sent (match ?x with _ => _ end) => destruct x
      end ].

Ltac keeps := repeat keeps_step.

Lemma bind_keeps_tail {A B} (c : M A) (k : A -> M B) (st : State) :
  (forall a, keeps_sent (k a)) ->
  sent (snd (bind c k st)) = sent (snd (c st)).
Proof.
  intros Hk. unfold bind.
  destruct (c st) as [[a|e] st1]; simpl; [apply Hk|reflexivity].
Qed.

Lemma try_keeps_tail {A} (c : M A) (handles : exn -> bool) (h : exn -> M A)
    (st : State) :
  (forall e, keeps_sent (h e)) ->
  sent (snd (try_except c handles h st)) = sent (snd (c st)).
Proof.
  intros Hh. unfold try_except.
  destruct (c st) as [[a|e] st1]; simpl; [reflexivity|].
  destruct (handles e); simpl; [apply Hh|reflexivity].
Qed.

(** ** publish_post *)

Section PublishFacts.
Context {U : Unicode}.
Variable E : Env.

(** After the request has gone out, [publish_post] only reads the
    response and prints. *)
Lemma publish_post_sent (post_data : pydict) (draft : bool) (st : State) :
  sent (snd (publish_post E post_data draft st))
  = sent st
    ++ (if negb (is_empty (API_URL E) || is_empty (API_KEY E))
        then match json_status (PDict (outgoing_payload post_data draft)) with
             | Encodes => [create_request E (outgoing_payload post_data draft)]
             | _ => []
             end
        else []).
Proof.
  unfold publish_post.
  destruct (is_empty (API_URL E) || is_empty (API_KEY E)); simpl negb; cbv iota.
  - rewrite app_nil_r. rewrite bind_keeps_tail by (intros ?; keeps).
    reflexivity.
  - cbv zeta.
    rewrite bind_keeps_tail by (intros ?; keeps).
    rewrite try_keeps_tail by (intros ?; keeps).
    rewrite bind_keeps_tail by (intros ?; keeps).
    unfold requests_send. cbn [json_body create_request].
    destruct (json_status (PDict (outgoing_payload post_data draft)));
      [|simpl; now rewrite app_nil_r..].
    destruct (server E (sent st) _); reflexivity.
Qed.

(** C7. For every post record, whatever its own [is_published] value,
    [publish_post] with [draft] set sends to the create endpoint a payload
    whose [is_published] is [False]; that request is the only one it
    sends, and it sends it whenever the configuration is present and the
    payload can be encoded. *)
Theorem draft_forces_unpublished (post_data : pydict) (st : State) :
  let payload := outgoing_payload post_data true in
  dict_lookup payload (lit "is_published") = Some (PBool false)
  /\ json_body (create_request E payload) = Some (PDict payload)
  /\ url (create_request E payload) = API_URL E ++ lit "?action=create"
  /\ sent (snd (publish_post E post_data true st))
     = sent st
       ++ (if negb (is_empty (API_URL E) || is_empty (API_KEY E))
           then match json_status (PDict payload) with
                | Encodes => [create_request E payload]
                | _ => []
                end
           else []).
Proof.
  cbv zeta. split; [|split; [|split]].
  - apply dict_lookup_set_same.
  - reflexivity.
  - unfold create_request, create_url, fstr. cbn [url concat].
    now rewrite app_nil_r.
  - apply publish_post_sent.
Qed.
Lemma outgoing_payload_lookup (post_data : pydict) (draft : bool)
    (key : pystr) :
  pystr_eqb (lit "is_published") key = false ->
  dict_lookup (outgoing_payload post_data draft) key
  = dict_lookup post_data key.
Proof.
  intros H. unfold outgoing_payload.
  destruct draft; [now apply dict_lookup_set_other|reflexivity].
Qed.





End PublishFacts.



(** ** list_posts *)

(** C1 fails on the code: whenever the GET succeeds and the body parses
    as JSON, with or without a [posts] key, [list_posts] prints nothing
    at all and returns; the request is all it leaves behind. *)
Theorem list_posts_parsed_body_prints_nothing {U : Unicode} (E : Env)
    (st : State) (r : Response) (body : pyval) :
  is_empty (API_URL E) = false ->
  server E (sent st) (list_request E) = Responds r ->
  json r = Some body ->
  list_posts E st
  = (Return tt,
     {| stdout := stdout st; sent := sent st ++ [list_request E] |}).
Proof.
  intros Hurl Hsrv Hjson.
  unfold list_posts. rewrite Hurl.
  cbv beta iota zeta
      delta [bind try_except requests_send response_json ret raise].
  cbn [json_body list_request]. fold (list_request E).
  rewrite Hsrv. cbv beta iota. rewrite Hjson. reflexivity.
Qed.

Lemma list_posts_parsed_body_prints_nothing_witness :
  dict_lookup
    match posts_body with PDict d => d | _ => [] end (lit "posts") <> None
  /\ list_posts (U := ascii_unicode) listing_env initial
     = (Return tt,
        {| stdout := []; sent := [list_request listing_env] |}).
Proof.
  split; [discriminate|].
  exact (list_posts_parsed_body_prints_nothing (U := ascii_unicode)
           listing_env initial (r := json_response posts_body)
           eq_refl eq_refl eq_refl).
Defined.

(** ** process_path and main *)

Section DriverFacts.
Context {U : Unicode}.
Variable E : Env.

Lemma path_is_file_exists (path : Path) :
  path_is_file E path = true -> path_exists E path = true.
Proof.
  unfold path_is_file, path_exists.
  destruct (fs_lookup (files E) path); [reflexivity|discriminate].
Qed.

(** C10. For every existing regular file whose lower-cased suffix is
    neither [.md] nor [.markdown], [process_path] prints the skip notice
    and returns [(0, 0)]: the content of the file plays no part and no
    request is sent; [main] then ends with exit status 0. *)
Theorem process_path_skips_other_files (args : Args) (s : pystr)
    (st : State) :
  arg_list args = false ->
  option_truthy (arg_delete args) = false ->
  arg_path args = Some s ->
  path_is_file E (Path_of_str s) = true ->
  is_markdown_suffix (Path_of_str s) = false ->
  process_path E (Path_of_str s) (arg_draft args) st
  = (Return (0, 0),
     {| stdout := stdout st
                  ++ [fstr [lit "Skipping non-markdown file: ";
                            path_str (Path_of_str s)]];
        sent := sent st |})
  /\ exit_status (fst (main E args st)) = 0%Z
  /\ sent (snd (main E args st)) = sent st.
Proof.
  intros Hlist Hdel Hpath Hfile Hsuffix.
  assert (Hskip : forall st0,
             process_path E (Path_of_str s) (arg_draft args) st0
             = (Return (0, 0),
                {| stdout := stdout st0
                             ++ [fstr [lit "Skipping non-markdown file: ";
                                       path_str (Path_of_str s)]];
                   sent := sent st0 |})).
  { intros st0. unfold process_path. rewrite Hfile, Hsuffix. reflexivity. }
  split; [apply Hskip|].
  unfold main. rewrite Hlist, Hdel, Hpath.
  destruct s as [|c s']; [split; reflexivity|].
  rewrite (path_is_file_exists _ Hfile). cbn [negb].
  rewrite bind_print. erewrite bind_returns by apply Hskip. cbv beta iota.
  rewrite bind_print. split; reflexivity.
Qed.
End DriverFacts.

Lemma process_path_skips_other_files_witness :
  process_path (U := ascii_unicode) notes_env
    (Path_of_str (lit "notes.txt")) (arg_draft notes_args) initial
  = (Return (0, 0),
     {| stdout := stdout initial
                  ++ [fstr [lit "Skipping non-markdown file: ";
                            path_str (Path_of_str (lit "notes.txt"))]];
        sent := sent initial |})
  /\ exit_status (fst (main (U := ascii_unicode) notes_env notes_args initial))
     = 0%Z
  /\ sent (snd (main (U := ascii_unicode) notes_env notes_args initial))
     = sent initial.
Proof.
  exact (process_path_skips_other_files (U := ascii_unicode) notes_env
           notes_args (s := lit "notes.txt") initial
           eq_refl eq_refl eq_refl eq_refl eq_refl).
Defined.

(** ** What is printed decides nothing *)

Lemma oblivious_ret {A} (a : A) : oblivious (ret a).
Proof. intros st1 st2 H. now split. Qed.

Lemma oblivious_raise {A} (e : exn) : oblivious (@raise A e).
Proof. intros st1 st2 H. now split. Qed.

Lemma oblivious_print (line : pystr) : oblivious (print line).
Proof. intros st1 st2 H. now split. Qed.

Lemma oblivious_bind {A B} (c : M A) (k : A -> M B) :
  oblivious c -> (forall a, oblivious (k a)) -> oblivious (bind c k).
Proof.
  intros Hc Hk st1 st2 H. unfold bind.
  destruct (Hc st1 st2 H) as [Ho Hs].
  destruct (c st1) as [[a1|e1] s1], (c st2) as [[a2|e2] s2];
    simpl in *; try discriminate.
  - injection Ho as <-. now apply Hk.
  - injection Ho as <-. split; [reflexivity|assumption].
Qed.

Lemma oblivious_try {A} (c : M A) (handles : exn -> bool) (h : exn -> M A) :
  oblivious c -> (forall e, oblivious (h e)) ->
  oblivious (try_except c handles h).
Proof.
  intros Hc Hh st1 st2 H. unfold try_except.
  destruct (Hc st1 st2 H) as [Ho Hs].
  destruct (c st1) as [[a1|e1] s1], (c st2) as [[a2|e2] s2];
    simpl in *; try discriminate.
  - split; assumption.
  - injection Ho as <-.
    destruct (handles e1); [now apply Hh|split; [reflexivity|assumption]].
Qed.

Lemma oblivious_getitem (d : pydict) (key : pystr) :
  oblivious (dict_getitem d key).
Proof.
  unfold dict_getitem. destruct (dict_lookup d key);
    [apply oblivious_ret|apply oblivious_raise].
Qed.

Lemma oblivious_result_get (result : pyval) (key : pystr) (default : pyval) :
  oblivious (result_get result key default).
Proof.
  destruct result; try apply oblivious_raise. apply oblivious_ret.
Qed.

Lemma oblivious_response_json (r : Response) : oblivious (response_json r).
Proof.
  unfold response_json.
  destruct (json r); [apply oblivious_ret|apply oblivious_raise].
Qed.

Lemma oblivious_call_slugify {U : Unicode} (text : pyval) :
  oblivious (call_slugify text).
Proof.
  destruct text; try apply oblivious_raise. apply oblivious_ret.
Qed.

Lemma oblivious_send (E : Env) (req : Request) :
  oblivious (requests_send E req).
Proof.
  intros st1 st2 H. unfold requests_send. rewrite H.
  destruct (json_body req) as [v|];
    [destruct (json_status v)|];
    try destruct (server E (sent st2) req); simpl; now rewrite ?H.
Qed.

Lemma oblivious_load (E : Env) (filepath : Path) :
  oblivious (frontmatter_load E filepath).
Proof.
  intros st1 st2 H. unfold frontmatter_load.
  destruct (fs_lookup (files E) filepath) as [[|loaded]|]; now split.
Qed.

Ltac oblivious_step :=
  first
    [ apply oblivious_ret | apply oblivious_raise | apply oblivious_print
    | apply oblivious_getitem | apply oblivious_result_get
    | apply oblivious_response_json | apply oblivious_call_slugify
    | apply oblivious_send | apply oblivious_load
    | apply oblivious_bind; [|intros ?]
    | apply oblivious_try; [|intros ?]
    | match goal with
      | |- oblivious (match ?x with _ => _ end) => destruct x
      end ].

Section BatchFacts.
Context {U : Unicode}.
Variable E : Env.

Lemma oblivious_parse (filepath : Path) :
  oblivious (parse_markdown_file E filepath).
Proof. unfold parse_markdown_file. repeat oblivious_step. Qed.

Lemma oblivious_publish (post_data : pydict) (draft : bool) :
  oblivious (publish_post E post_data draft).
Proof. unfold publish_post. repeat oblivious_step. Qed.

Lemma batch_results_oblivious (md_files : list Path) (draft : bool)
    (st1 st2 : State) :
  sent st1 = sent st2 ->
  batch_results E md_files draft st1 = batch_results E md_files draft st2.
Proof.
  revert st1 st2. induction md_files as [|f rest IH]; intros st1 st2 H;
    [reflexivity|].
  cbn [batch_results].
  assert (Ho : oblivious (post_data <- parse_markdown_file E f;;
                          publish_post E post_data draft)).
  { apply oblivious_bind; [apply oblivious_parse|].
    intros a. apply oblivious_publish. }
  destruct (Ho st1 st2 H) as [Hr Hs].
  destruct ((post_data <- parse_markdown_file E f;;
             publish_post E post_data draft) st1) as [[ok1|e1] s1],
           ((post_data <- parse_markdown_file E f;;
             publish_post E post_data draft) st2) as [[ok2|e2] s2];
    simpl in *; try discriminate.
  - injection Hr as <-. f_equal. now apply IH.
  - congruence.
Qed.

(** The counters of the loop count the results of its turns. *)
Lemma publish_each_counts (md_files : list Path) (draft : bool)
    (success failed : nat) (st : State) (oks : list bool) :
  batch_results E md_files draft st = map Return oks ->
  fst (publish_each E md_files draft success failed st)
  = Return (success + count_occ bool_dec oks true,
            failed + count_occ bool_dec oks false).
Proof.
  revert success failed st oks.
  induction md_files as [|f rest IH]; intros success failed st oks.
  - destruct oks; [|discriminate]. intros _. simpl.
    now rewrite !Nat.add_0_r.
  - cbn [batch_results publish_each]. unfold bind.
    destruct (parse_markdown_file E f st) as [[post_data|e] st1].
    + destruct (publish_post E post_data draft st1) as [[ok|e] st2].
      * destruct oks as [|b oks]; [discriminate|]. cbn [map].
        intros H. injection H as <- H.
        destruct ok; rewrite (IH _ _ _ _ H); simpl; f_equal; f_equal; lia.
      * destruct oks; discriminate.
    + destruct oks; discriminate.
Qed.
(** Parsing reads the file and nothing else: the state is left as it
    is, and the result does not depend on it. *)
Lemma parse_markdown_file_state (filepath : Path) (st : State) :
  parse_markdown_file E filepath st
  = (fst (parse_markdown_file E filepath initial), st).
Proof.
  unfold parse_markdown_file, bind, frontmatter_load.
  destruct (fs_lookup (files E) filepath) as [[|[[metadata body]|e]]|];
    try reflexivity.
  cbv zeta. cbn [fst snd].
  destruct (dict_get metadata (lit "title")
              (PStr (py_title (replace_char hyphen space (path_stem filepath)))));
    reflexivity.
Qed.



Lemma path_is_dir_not_file (path : Path) :
  path_is_dir E path = true ->
  path_is_file E path = false /\ path_exists E path = true.
Proof.
  unfold path_is_dir, path_is_file, path_exists.
  destruct (fs_lookup (files E) path) as [[|]|]; try discriminate.
  now split.
Qed.


(** C3. A directory with exactly four markdown files, of which three are
    published and one is refused by the remote API ([publish_post] returns
    [False]): [process_path] returns [(3, 1)] and the process ends with
    exit status 1. *)
Theorem process_path_three_of_four (args : Args) (s : pystr) (st : State)
    (oks : list bool) :
  arg_list args = false ->
  option_truthy (arg_delete args) = false ->
  arg_path args = Some s ->
  s <> [] ->
  path_is_dir E (Path_of_str s) = true ->
  length (sorted_paths (glob_md (files E) (Path_of_str s))) = 4 ->
  batch_results E (sorted_paths (glob_md (files E) (Path_of_str s)))
    (arg_draft args) st
  = map Return oks ->
  count_occ bool_dec oks true = 3 ->
  count_occ bool_dec oks false = 1 ->
  fst (process_path E (Path_of_str s) (arg_draft args) st) = Return (3, 1)
  /\ exit_status (fst (main E args st)) = 1%Z.
Proof.
  intros Hlist Hdel Hpath Hs Hdir _ Hres Htrue Hfalse.
  destruct (path_is_dir_not_file _ Hdir) as [Hfile Hexists].
  assert (Hrun : forall st0, sent st0 = sent st ->
            fst (process_path E (Path_of_str s) (arg_draft args) st0)
            = Return (3, 1)).
  { intros st0 Hsent. unfold process_path. rewrite Hfile, Hdir.
    rewrite publish_each_counts with (oks := oks).
    - now rewrite Htrue, Hfalse.
    - rewrite <- Hres. now apply batch_results_oblivious. }
  split; [now apply Hrun|].
  unfold main. rewrite Hlist, Hdel, Hpath.
  destruct s as [|c s']; [congruence|].
  rewrite Hexists. cbn [negb]. rewrite bind_print.
  match goal with
  | |- context [bind _ _ ?st0] =>
      pose proof (Hrun st0 eq_refl) as Hp;
      destruct (process_path E (Path_of_str (c :: s')) (arg_draft args) st0)
        as [o st1] eqn:Hpp
  end.
  simpl in Hp. subst o.
  erewrite bind_returns by exact Hpp. cbv beta iota.
  rewrite bind_print. reflexivity.
Qed.
End BatchFacts.

(** *** The sample directory *)






Lemma process_path_three_of_four_witness :
  fst (process_path (U := ascii_unicode) four_env
         (Path_of_str (lit "posts")) (arg_draft posts_args) initial)
  = Return (3, 1)
  /\ exit_status (fst (main (U := ascii_unicode) four_env posts_args initial))
     = 1%Z.
Proof.
  apply (process_path_three_of_four (U := ascii_unicode) four_env posts_args
           (s := lit "posts") initial [true; true; false; true]).
  - reflexivity.
  - reflexivity.
  - reflexivity.
  - discriminate.
  - reflexivity.
  - reflexivity.
  - reflexivity.
  - reflexivity.
  - reflexivity.
Defined.

(* ================================================================== *)
(** * Part III: further properties of the code *)
(* ================================================================== *)

(** ** delete_post *)

Section DeleteFacts.
Context {U : Unicode}.
Variable E : Env.




(** [delete_post] sends one request at most: a POST without a body to
    the delete address, to which the slug is appended as it is, with the
    key in the [X-API-KEY] header; it sends none when the address or the
    key is not configured. *)
Theorem delete_post_sent (slug : pystr) (st : State) :
  sent (snd (delete_post E slug st))
  = sent st
    ++ (if is_empty (API_URL E) || is_empty (API_KEY E) then []
        else [delete_request E slug])
  /\ method (delete_request E slug) = POST
  /\ url (delete_request E slug)
     = API_URL E ++ lit "?action=delete&slug=" ++ slug
  /\ headers (delete_request E slug) = [(lit "X-API-KEY", API_KEY E)]
  /\ json_body (delete_request E slug) = None.
Proof.
  split; [|split; [reflexivity|split; [|split; reflexivity]]].
  - unfold delete_post.
    destruct (is_empty (API_URL E) || is_empty (API_KEY E)).
    + rewrite app_nil_r. rewrite bind_keeps_tail by (intros ?; keeps).
      reflexivity.
    + rewrite bind_keeps_tail by (intros ?; keeps).
      rewrite try_keeps_tail by (intros ?; keeps).
      rewrite bind_keeps_tail by (intros ?; keeps).
      unfold requests_send. cbn [json_body delete_request].
      destruct (server E (sent st) _); reflexivity.
  - unfold delete_request, fstr. cbn [url concat]. now rewrite app_nil_r.
Qed.



End DeleteFacts.




(** ** list_posts *)

Section ListFacts.
Context {U : Unicode}.
Variable E : Env.



End ListFacts.


(** ** The body snippet of the diagnostics *)

Section SnippetFacts.
Context {U : Unicode}.

Lemma lstrip_nil (s : pystr) :
  lstrip s = [] <-> forallb py_isspace s = true.
Proof.
  induction s as [|c s IH]; simpl; [tauto|].
  destruct (py_isspace c); simpl; [exact IH|].
  split; discriminate.
Qed.

Lemma forallb_rev (f : codepoint -> bool) (s : pystr) :
  forallb f (rev s) = forallb f s.
Proof.
  destruct (forallb f s) eqn:H.
  - rewrite forallb_forall in *. intros c Hc. apply H. now apply in_rev.
  - destruct (forallb f (rev s)) eqn:H'; [|reflexivity].
    rewrite <- H. symmetry. rewrite forallb_forall in *.
    intros c Hc. apply H'. now apply in_rev in Hc.
Qed.

Lemma lstrip_forallb (s : pystr) :
  forallb py_isspace s = false -> forallb py_isspace (lstrip s) = false.
Proof.
  induction s as [|c s IH]; simpl; [discriminate|].
  destruct (py_isspace c) eqn:Hc; simpl; [exact IH|].
  intros _. now rewrite Hc.
Qed.

Lemma strip_nil (s : pystr) :
  strip s = [] <-> forallb py_isspace s = true.
Proof.
  unfold strip, rstrip. split.
  - intros H. destruct (forallb py_isspace s) eqn:Hs; [reflexivity|].
    apply lstrip_forallb in Hs. rewrite <- forallb_rev in Hs.
    apply lstrip_forallb in Hs.
    apply (f_equal (@rev codepoint)) in H. rewrite rev_involutive in H.
    simpl in H. rewrite H in Hs. discriminate.
  - intros H. apply lstrip_nil in H. now rewrite H.
Qed.

(** The [Body] line of the diagnostics never is empty and never shows
    more than 800 characters: a body that is empty or all whitespace is
    shown as [<empty response>], any other body by the first 800
    characters of its stripped text. *)
Theorem body_snippet_bounds (r : Response) :
  body_snippet r <> []
  /\ length (body_snippet r) <= 800
  /\ (if forallb py_isspace (text r)
      then body_snippet r = lit "<empty response>"
      else body_snippet r = firstn 800 (strip (text r))).
Proof.
  unfold body_snippet, py_prefix.
  destruct (forallb py_isspace (text r)) eqn:Hs.
  - apply strip_nil in Hs. rewrite Hs.
    cbn [firstn is_empty]. split; [discriminate|]. split; [|reflexivity].
    simpl. lia.
  - assert (Hne : strip (text r) <> []).
    { intros H. apply strip_nil in H. congruence. }
    destruct (strip (text r)) as [|c rest] eqn:Hstrip; [congruence|].
    change (firstn 800 (c :: rest)) with (c :: firstn 799 rest).
    cbn [is_empty]. split; [discriminate|]. split; [|reflexivity].
    cbn [length].
    assert (length (firstn 799 rest) <= 799).
    { rewrite length_firstn. lia. }
    lia.
Qed.
End SnippetFacts.

(** ** The records of parse_markdown_file *)

Section RecordFacts.
Context {U : Unicode}.
Variable E : Env.

Lemma json_status_cons (k x : pyval) (rest : list (pyval * pyval)) :
  json_status (PDict ((k, x) :: rest))
  = match key_status k with
    | Encodes =>
        match json_status x with
        | Encodes => json_status (PDict rest)
        | e => e
        end
    | e => e
    end.
Proof. reflexivity. Qed.

(** In every record the title, the content and [published_at] are
    strings, so a front-matter date under [date] never stands in the way
    of the JSON encoder; the record can be encoded exactly when each of
    the six values taken over from the front matter can. *)
Theorem parse_markdown_file_encodable (filepath : Path) (st st' : State)
    (record : pydict) :
  parse_markdown_file E filepath st = (Return record, st') ->
  (exists title content published_at,
     dict_lookup record (lit "title") = Some (PStr title)
     /\ dict_lookup record (lit "content") = Some (PStr content)
     /\ dict_lookup record (lit "published_at") = Some (PStr published_at))
  /\ (json_status (PDict record) = Encodes
      <-> forall key v,
            In key passed_through ->
            dict_lookup record key = Some v -> json_status v = Encodes).
Proof.
  unfold parse_markdown_file, bind, frontmatter_load.
  destruct (fs_lookup (files E) filepath) as [[|[[metadata body]|e]]|];
    try discriminate.
  cbv zeta. cbn [fst snd].
  destruct (dict_get metadata (lit "title")
              (PStr (py_title (replace_char hyphen space (path_stem filepath)))))
    as [| | | |title| | | |]; try discriminate.
  cbn [call_slugify ret]. intros H; injection H as <- <-.
  split; [do 3 eexists; repeat split; reflexivity|].
  set (v_slug := dict_get metadata (lit "slug") _).
  set (v_excerpt := dict_get metadata (lit "excerpt") _).
  set (v_category := dict_get metadata (lit "category") _).
  set (v_tags := dict_get metadata (lit "tags") _).
  set (v_image := dict_get metadata (lit "featured_image") _).
  set (v_published := dict_get metadata (lit "published") _).
  rewrite !json_status_cons. cbn [key_status].
  change (json_status (PStr _)) with Encodes. cbv iota.
  change (json_status (PDict [])) with Encodes.
  split.
  - intros Henc key v Hin Hv.
    destruct (json_status v_slug) eqn:H1; try discriminate.
    destruct (json_status v_excerpt) eqn:H2; try discriminate.
    destruct (json_status v_category) eqn:H3; try discriminate.
    destruct (json_status v_tags) eqn:H4; try discriminate.
    destruct (json_status v_image) eqn:H5; try discriminate.
    destruct (json_status v_published) eqn:H6; try discriminate.
    unfold passed_through in Hin.
    destruct Hin as [<-|[<-|[<-|[<-|[<-|[<-|[]]]]]]];
      injection Hv as <-; assumption.
  - intros Hall.
    rewrite (Hall (lit "slug") v_slug) by (unfold passed_through; simpl; auto).
    rewrite (Hall (lit "excerpt") v_excerpt)
      by (unfold passed_through; simpl; auto).
    rewrite (Hall (lit "category") v_category)
      by (unfold passed_through; simpl; auto).
    rewrite (Hall (lit "tags") v_tags) by (unfold passed_through; simpl; auto).
    rewrite (Hall (lit "featured_image") v_image)
      by (unfold passed_through; simpl; auto 10).
    rewrite (Hall (lit "is_published") v_published)
      by (unfold passed_through; simpl; auto 10).
    reflexivity.
Qed.

End RecordFacts.

Lemma parse_markdown_file_encodable_witness :
  (exists title content published_at,
     dict_lookup my_article_record (lit "title") = Some (PStr title)
     /\ dict_lookup my_article_record (lit "content") = Some (PStr content)
     /\ dict_lookup my_article_record (lit "published_at")
        = Some (PStr published_at))
  /\ (json_status (PDict my_article_record) = Encodes
      <-> forall key v,
            In key passed_through ->
            dict_lookup my_article_record key = Some v ->
            json_status v = Encodes).
Proof.
  apply (parse_markdown_file_encodable (U := ascii_unicode) accepting_env
           my_article initial (st' := initial)).
  reflexivity.
Defined.

(** ** Which files count as markdown *)

Section SuffixFacts.
Context {U : Unicode}.

Lemma rfind_app (c : codepoint) (a b : pystr) :
  rfind c (a ++ b)
  = match rfind c b with
    | Some i => Some (length a + i)
    | None => rfind c a
    end.
Proof.
  induction a as [|d a IH]; simpl.
  - now destruct (rfind c b).
  - rewrite IH. destruct (rfind c b); [reflexivity|].
    reflexivity.
Qed.

(** The suffix of a name that ends with an extension without a dot of
    its own, after a stem that is not empty. *)
Lemma suffix_of_extension (p : Path) (stem ext : pystr) :
  path_name p = stem ++ dot :: ext ->
  stem <> [] -> ext <> [] -> rfind dot ext = None ->
  path_suffix p = dot :: ext.
Proof.
  intros Hname Hstem Hext Hdot.
  unfold path_suffix, suffix_start. rewrite Hname, rfind_app.
  cbn [rfind]. rewrite Hdot, N.eqb_refl, Nat.add_0_r.
  rewrite length_app. cbn [length].
  destruct stem as [|c stem]; [congruence|].
  destruct ext as [|x ext]; [congruence|].
  cbn [length].
  replace (Nat.ltb 0 (S (length stem))) with true
    by (symmetry; apply Nat.ltb_lt; lia).
  replace (Nat.ltb (S (length stem))
             (S (length stem) + S (S (length ext)) - 1)) with true
    by (symmetry; apply Nat.ltb_lt; lia).
  cbn [andb].
  change (S (length stem)) with (length (c :: stem)).
  rewrite skipn_app, skipn_all, Nat.sub_diag. reflexivity.
Qed.

Lemma strip_base_last (base p rel : Path) :
  strip_base base p = Some rel -> rel <> [] -> last p [] = last rel [].
Proof.
  revert p. induction base as [|a base IH]; intros p; simpl.
  - intros H; injection H as <-. reflexivity.
  - destruct p as [|b p]; [discriminate|].
    destruct (pystr_eqb a b); [|discriminate].
    intros H Hrel. rewrite <- (IH p H Hrel).
    destruct p as [|b' p']; [|reflexivity].
    destruct base; simpl in H; [injection H as <-; congruence|discriminate].
Qed.

Lemma matches_star_md_name (name : pystr) :
  matches_star_md name = true -> exists stem, name = stem ++ lit ".md".
Proof.
  unfold matches_star_md. intros H.
  destruct (rev name) as [|d [|m [|o rest]]] eqn:Hrev; try discriminate.
  apply andb_true_iff in H as [H Ho]. apply andb_true_iff in H as [Hd Hm].
  apply N.eqb_eq in Hd, Hm, Ho. subst d m o.
  exists (rev rest).
  rewrite <- (rev_involutive name), Hrev. simpl.
  now rewrite <- !app_assoc.
Qed.

(** Every file that the directory mode picks up has a name that ends in
    [.md]; unless the whole name is [.md], the single-file mode accepts
    it as markdown too. *)
Theorem glob_md_accepted_as_file (fs : FileSystem) (base f : Path) :
  py_lower (lit ".md") = lit ".md" ->
  In f (glob_md fs base) ->
  (exists stem, path_name f = stem ++ lit ".md")
  /\ (path_name f = lit ".md" \/ is_markdown_suffix f = true).
Proof.
  intros Hlower Hin. unfold glob_md in Hin.
  apply in_map_iff in Hin as ([p n] & <- & Hin).
  apply filter_In in Hin as [_ Hmatch]. cbn [fst] in *.
  destruct (strip_base base p) as [[|part more]|] eqn:Hrel; try discriminate.
  assert (Hlast : last p [] = last (part :: more) []).
  { apply (strip_base_last _ _ Hrel). discriminate. }
  rewrite <- Hlast in Hmatch.
  destruct (matches_star_md_name _ Hmatch) as [stem Hname].
  assert (Hpn : path_name p = stem ++ lit ".md").
  { unfold path_name. rewrite Hname.
    destruct (pystr_eqb (stem ++ lit ".md") [slash]) eqn:Hroot;
      [|reflexivity].
    apply pystr_eqb_eq in Hroot.
    destruct stem as [|? [|? ?]]; discriminate. }
  split; [now exists stem|].
  destruct stem as [|c stem]; [now left|right].
  unfold is_markdown_suffix.
  rewrite (suffix_of_extension p (stem := c :: stem) (ext := lit "md"));
    [|exact Hpn|discriminate|discriminate|reflexivity].
  change (dot :: lit "md") with (lit ".md").
  now rewrite Hlower, pystr_eqb_refl.
Qed.

(** A file called [NAME.markdown] is published when it is given as a
    single file, and is never among the files of the directory mode. *)
Theorem markdown_extension_single_file_only (fs : FileSystem)
    (base p : Path) (stem : pystr) :
  py_lower (lit ".markdown") = lit ".markdown" ->
  path_name p = stem ++ lit ".markdown" ->
  stem <> [] ->
  is_markdown_suffix p = true /\ ~ In p (glob_md fs base).
Proof.
  intros Hlower Hname Hstem. split.
  - unfold is_markdown_suffix.
    rewrite (suffix_of_extension p (stem := stem) (ext := lit "markdown"));
      [|exact Hname|exact Hstem|discriminate|reflexivity].
    change (dot :: lit "markdown") with (lit ".markdown").
    rewrite Hlower, pystr_eqb_refl. apply orb_true_r.
  - intros Hin. unfold glob_md in Hin.
    apply in_map_iff in Hin as ([q n] & Hq & Hin). cbn [fst] in Hq. subst q.
    apply filter_In in Hin as [_ Hmatch]. cbn [fst] in *.
    destruct (strip_base base p) as [[|part more]|] eqn:Hrel;
      try discriminate.
    assert (Hlast : last p [] = last (part :: more) []).
    { apply (strip_base_last _ _ Hrel). discriminate. }
    rewrite <- Hlast in Hmatch.
    assert (Hpn : last p [] = stem ++ lit ".markdown").
    { unfold path_name in Hname.
      destruct (pystr_eqb (last p []) [slash]); [|exact Hname].
      destruct stem; discriminate. }
    rewrite Hpn in Hmatch. unfold matches_star_md in Hmatch.
    rewrite rev_app_distr in Hmatch. discriminate.
Qed.
End SuffixFacts.

Lemma glob_md_accepted_as_file_witness :
  (exists stem, path_name [lit "posts"; lit "a.md"] = stem ++ lit ".md")
  /\ (path_name [lit "posts"; lit "a.md"] = lit ".md"
      \/ is_markdown_suffix (U := ascii_unicode) [lit "posts"; lit "a.md"]
         = true).
Proof.
  apply (glob_md_accepted_as_file (U := ascii_unicode) four_files
           [lit "posts"] [lit "posts"; lit "a.md"]).
  - reflexivity.
  - do 2 right. left. reflexivity.
Defined.

Lemma markdown_extension_single_file_only_witness :
  is_markdown_suffix (U := ascii_unicode) [lit "posts"; lit "notes.markdown"]
  = true
  /\ ~ In [lit "posts"; lit "notes.markdown"]
         (glob_md
            (([lit "posts"; lit "notes.markdown"], plain_file) :: four_files)
            [lit "posts"]).
Proof.
  apply (markdown_extension_single_file_only (U := ascii_unicode)
           (([lit "posts"; lit "notes.markdown"], plain_file) :: four_files)
           [lit "posts"] [lit "posts"; lit "notes.markdown"]
           (stem := lit "notes")).
  - reflexivity.
  - reflexivity.
  - discriminate.
Defined.

(** ** The order of the files *)

Lemma pystr_compare_antisym (s t : pystr) :
  pystr_compare t s = CompOpp (pystr_compare s t).
Proof.
  revert t. induction s as [|c s IH]; intros [|d t]; simpl; try reflexivity.
  rewrite (N.compare_antisym c d).
  destruct (N.compare c d); simpl; [apply IH|reflexivity|reflexivity].
Qed.

Lemma path_compare_antisym (p q : Path) :
  path_compare q p = CompOpp (path_compare p q).
Proof.
  revert q. induction p as [|a p IH]; intros [|b q]; simpl; try reflexivity.
  rewrite (pystr_compare_antisym a b).
  destruct (pystr_compare a b); simpl; [apply IH|reflexivity|reflexivity].
Qed.

Lemma path_leb_total (p q : Path) :
  path_leb p q = false -> path_leb q p = true.
Proof.
  unfold path_leb. rewrite (path_compare_antisym p q).
  destruct (path_compare p q); simpl; congruence.
Qed.

Lemma insert_path_perm (p : Path) (l : list Path) :
  Permutation (insert_path p l) (p :: l).
Proof.
  induction l as [|q l IH]; simpl; [reflexivity|].
  destruct (path_leb p q); [reflexivity|].
  rewrite IH. apply perm_swap.
Qed.

Lemma insert_path_sorted (p : Path) (l : list Path) :
  Sorted (fun a b => path_leb a b = true) l ->
  Sorted (fun a b => path_leb a b = true) (insert_path p l).
Proof.
  induction l as [|q l IH]; simpl; intros Hs.
  - repeat constructor.
  - destruct (path_leb p q) eqn:Hpq.
    + constructor; [assumption|]. now constructor.
    + inversion Hs as [|? ? Hl Hhd]; subst.
      constructor; [now apply IH|].
      destruct l as [|r l]; simpl.
      * constructor. now apply path_leb_total.
      * destruct (path_leb p r).
        -- constructor. now apply path_leb_total.
        -- inversion Hhd; subst. now constructor.
Qed.

(** The files of a directory are taken in ascending order, and sorting
    neither drops nor repeats one. *)
Theorem sorted_paths_sorted_permutation (l : list Path) :
  Permutation (sorted_paths l) l
  /\ Sorted (fun a b => path_leb a b = true) (sorted_paths l).
Proof.
  unfold sorted_paths. split.
  - induction l as [|p l IH]; simpl; [reflexivity|].
    rewrite insert_path_perm. now constructor.
  - induction l as [|p l IH]; simpl; [constructor|].
    now apply insert_path_sorted.
Qed.

(** ** The exit status *)

Section ExitFacts.
Context {U : Unicode}.
Variable E : Env.

Lemma oblivious_publish_each (md_files : list Path) (draft : bool) :
  forall success failed,
    oblivious (publish_each E md_files draft success failed).
Proof.
  induction md_files as [|f rest IH]; intros success failed;
    cbn [publish_each].
  - apply oblivious_ret.
  - apply oblivious_bind; [apply oblivious_parse|]. intros post_data.
    apply oblivious_bind; [apply oblivious_publish|]. intros ok.
    destruct ok; apply IH.
Qed.

Lemma oblivious_process_path (path : Path) (draft : bool) :
  oblivious (process_path E path draft).
Proof.
  unfold process_path. cbv zeta.
  destruct (path_is_file E path).
  - destruct (is_markdown_suffix path).
    + apply oblivious_bind; [apply oblivious_parse|]. intros post_data.
      apply oblivious_bind; [apply oblivious_publish|]. intros ok.
      destruct ok; apply oblivious_ret.
    + apply oblivious_bind; [apply oblivious_print|]. intros ?.
      apply oblivious_ret.
  - destruct (path_is_dir E path);
      [apply oblivious_publish_each|apply oblivious_ret].
Qed.

(** With a path (and neither [--list] nor [--delete]), the exit status
    is 1 when the path does not exist, and nothing is sent then;
    otherwise it is 0 when [process_path] returns without a failure, 1
    when it returns with failures, and that of the exception when
    [process_path] raises. *)
Theorem main_publish_exit_status (args : Args) (s : pystr) (st : State) :
  arg_list args = false ->
  option_truthy (arg_delete args) = false ->
  arg_path args = Some s ->
  s <> [] ->
  if path_exists E (Path_of_str s)
  then exit_status (fst (main E args st))
       = match fst (process_path E (Path_of_str s) (arg_draft args) st) with
         | Return (_, 0) => 0%Z
         | Return (_, S _) => 1%Z
         | Raise e => exit_status (Raise e)
         end
  else exit_status (fst (main E args st)) = 1%Z
       /\ sent (snd (main E args st)) = sent st.
Proof.
  intros Hlist Hdel Hpath Hs.
  unfold main. rewrite Hlist, Hdel, Hpath.
  destruct s as [|c s']; [congruence|].
  destruct (path_exists E (Path_of_str (c :: s'))); cbn [negb].
  - rewrite bind_print.
    match goal with
    | |- context [bind _ _ ?st0] =>
        destruct (oblivious_process_path (Path_of_str (c :: s'))
                    (arg_draft args) st0 st eq_refl) as [Hsame _];
        destruct (process_path E (Path_of_str (c :: s')) (arg_draft args) st0)
          as [o st1] eqn:Hrun
    end.
    cbn [fst] in Hsame. rewrite <- Hsame.
    destruct o as [[success failed]|e].
    + erewrite bind_returns by exact Hrun. cbv beta iota.
      rewrite bind_print. destruct failed; reflexivity.
    + erewrite bind_raises by exact Hrun. reflexivity.
  - rewrite bind_print. split; reflexivity.
Qed.
End ExitFacts.

Lemma main_publish_exit_status_witness :
  if path_exists four_env (Path_of_str (lit "posts"))
  then exit_status (fst (main (U := ascii_unicode) four_env posts_args initial))
       = match fst (process_path (U := ascii_unicode) four_env
                      (Path_of_str (lit "posts")) (arg_draft posts_args)
                      initial) with
         | Return (_, 0) => 0%Z
         | Return (_, S _) => 1%Z
         | Raise e => exit_status (Raise e)
         end
  else exit_status (fst (main (U := ascii_unicode) four_env posts_args initial))
       = 1%Z
       /\ sent (snd (main (U := ascii_unicode) four_env posts_args initial))
          = sent initial.
Proof.
  apply (main_publish_exit_status (U := ascii_unicode) four_env posts_args
           (s := lit "posts") initial).
  - reflexivity.
  - reflexivity.
  - reflexivity.
  - discriminate.
Defined.

(** ** What a successful create call prints *)

Section SuccessFacts.
Context {U : Unicode}.
Variable E : Env.

(** A create call that succeeds prints one line: the check mark, the
    label, the title and the slug.  The label is [Draft] when the call is
    made with [draft], and also when the record's own [is_published] is
    falsy; it is [Published] in the remaining case. *)
Theorem publish_post_success_line (post_data : pydict) (draft : bool)
    (st : State) (r : Response) (res : list (pyval * pyval))
    (title slug : pyval) :
  is_empty (API_URL E) || is_empty (API_KEY E) = false ->
  json_status (PDict (outgoing_payload post_data draft)) = Encodes ->
  server E (sent st) (create_request E (outgoing_payload post_data draft))
  = Responds r ->
  status_code r = 200%Z ->
  json r = Some (PDict res) ->
  py_truthy (dict_get res (lit "success") PNone) = true ->
  dict_lookup post_data (lit "title") = Some title ->
  dict_lookup post_data (lit "slug") = Some slug ->
  publish_post E post_data draft st
  = (Return true,
     {| stdout :=
          stdout st
          ++ [fstr [check_mark;
                    if draft
                       || negb (py_truthy
                                  (dict_get post_data (lit "is_published")
                                     PNone))
                    then lit "Draft" else lit "Published";
                    lit ": "; py_str E title; lit " ("; py_str E slug;
                    lit ")"]];
        sent := sent st
                ++ [create_request E (outgoing_payload post_data draft)] |}).
Proof.
  intros Hcfg Henc Hsrv Hstatus Hjson Hok Htitle Hslug.
  rewrite <- (outgoing_payload_lookup post_data draft (lit "title"))
    in Htitle by reflexivity.
  rewrite <- (outgoing_payload_lookup post_data draft (lit "slug"))
    in Hslug by reflexivity.
  assert (Hlabel :
            draft || negb (py_truthy
                             (dict_get (outgoing_payload post_data draft)
                                (lit "is_published") PNone))
            = draft || negb (py_truthy
                               (dict_get post_data (lit "is_published")
                                  PNone))).
  { destruct draft; reflexivity. }
  apply Z.eqb_eq in Hstatus.
  cbv beta iota zeta
      delta [publish_post bind try_except requests_send response_json
             result_get dict_getitem ret raise print
             is_RequestException is_ValueError].
  cbn [json_body create_request].
  rewrite Hcfg. cbv beta iota.
  rewrite Henc. cbv beta iota.
  fold (create_request E (outgoing_payload post_data draft)).
  rewrite Hsrv. cbv beta iota. rewrite Hjson. cbv beta iota.
  rewrite Hstatus. cbv beta iota. rewrite Hok. cbv beta iota.
  rewrite Htitle. cbv beta iota. rewrite Hslug. cbv beta iota.
  rewrite Hlabel. reflexivity.
Qed.
End SuccessFacts.

Lemma publish_post_success_line_witness :
  publish_post (U := ascii_unicode) accepting_env my_article_record false
    initial
  = (Return true,
     {| stdout :=
          stdout initial
          ++ [fstr [check_mark;
                    if false
                       || negb (py_truthy
                                  (dict_get my_article_record
                                     (lit "is_published") PNone))
                    then lit "Draft" else lit "Published";
                    lit ": "; py_str accepting_env (PStr (lit "My Article"));
                    lit " ("; py_str accepting_env (PStr (lit "my-article"));
                    lit ")"]];
        sent := sent initial
                ++ [create_request accepting_env
                      (outgoing_payload my_article_record false)] |}).
Proof.
  apply (publish_post_success_line (U := ascii_unicode) accepting_env
           my_article_record false initial
           (r := json_response success_body)
           (res := [(PStr (lit "success"), PBool true)])).
  - reflexivity.
  - reflexivity.
  - reflexivity.
  - reflexivity.
  - reflexivity.
  - reflexivity.
  - reflexivity.
  - reflexivity.
Defined.

(** ** A batch that ends early *)

Section AbortFacts.
Context {U : Unicode}.
Variable E : Env.

(** The loop over [l1 ++ l2] is the loop over [l1] followed by the loop
    over [l2], which takes over the counters. *)
Lemma publish_each_app (l1 l2 : list Path) (draft : bool) :
  forall (success failed : nat) (st : State),
    publish_each E (l1 ++ l2) draft success failed st
    = match publish_each E l1 draft success failed st with
      | (Return (success', failed'), st') =>
          publish_each E l2 draft success' failed' st'
      | (Raise e, st') => (Raise e, st')
      end.
Proof.
  induction l1 as [|f l1 IH]; intros success failed st; [reflexivity|].
  cbn [app publish_each]. unfold bind.
  destruct (parse_markdown_file E f st) as [[post_data|e] st1];
    [|reflexivity].
  destruct (publish_post E post_data draft st1) as [[[|]|e] st2];
    [apply IH|apply IH|reflexivity].
Qed.

(** When a file of the directory cannot be parsed, the loop ends with
    the exception of the parser in the state that the files before it
    have left: what was published before stays published, the counters
    are lost, and the files after it are never looked at. *)
Theorem publish_each_stops_at_exception (before after : list Path)
    (md_file : Path) (draft : bool) (success failed : nat)
    (st st' : State) (counts : nat * nat) (e : exn) :
  publish_each E before draft success failed st = (Return counts, st') ->
  fst (parse_markdown_file E md_file initial) = Raise e ->
  publish_each E (before ++ md_file :: after) draft success failed st
  = (Raise e, st').
Proof.
  intros Hbefore Hparse.
  rewrite publish_each_app, Hbefore. destruct counts as [s f].
  cbn [publish_each]. unfold bind.
  now rewrite parse_markdown_file_state, Hparse.
Qed.
End AbortFacts.

Lemma publish_each_stops_at_exception_witness :
  publish_each (U := ascii_unicode) mixed_env
    ([[lit "posts"; lit "a.md"]]
     ++ [lit "posts"; lit "b.md"] :: [[lit "posts"; lit "c.md"]])
    false 0 0 initial
  = (Raise UnicodeDecodeError,
     snd (publish_each (U := ascii_unicode) mixed_env
            [[lit "posts"; lit "a.md"]] false 0 0 initial)).
Proof.
  apply (publish_each_stops_at_exception (U := ascii_unicode) mixed_env
           [[lit "posts"; lit "a.md"]] [[lit "posts"; lit "c.md"]]
           [lit "posts"; lit "b.md"] false 0 0 initial
           (counts := (1, 0))).
  - reflexivity.
  - reflexivity.
Defined.

(** ** Configuration *)

Lemma starts_with_app (old rest : pystr) : starts_with old (old ++ rest) = true.
Proof.
  induction old as [|a old IH]; simpl; [reflexivity|].
  now rewrite N.eqb_refl, IH.
Qed.

Lemma replace_from_skip (old new passed rest : pystr) :
  replace_from old new (length passed) (passed ++ rest)
  = replace_from old new 0 rest.
Proof.
  induction passed as [|c passed IH]; simpl; [|exact IH].
  destruct rest; reflexivity.
Qed.

(** The first occurrence of [old], when none starts before it. *)
Lemma replace_from_first (old new before rest : pystr) :
  old <> [] ->
  (forall i, i < length before ->
             starts_with old (skipn i (before ++ old ++ rest)) = false) ->
  replace_from old new 0 (before ++ old ++ rest)
  = before ++ new ++ replace_from old new 0 rest.
Proof.
  intros Hold. induction before as [|c before IH]; intros Hnone.
  - destruct old as [|a old]; [congruence|]. cbn [app replace_from].
    change (a :: old ++ rest) with ((a :: old) ++ rest).
    rewrite starts_with_app.
    replace (length (a :: old) - 1) with (length old) by (simpl; lia).
    now rewrite replace_from_skip.
  - cbn [app replace_from].
    assert (H0 := Hnone 0 (Nat.lt_0_succ _)). cbn [skipn app] in H0.
    rewrite H0. f_equal. apply IH.
    intros i Hi. apply (Hnone (S i)). simpl. lia.
Qed.

Lemma replace_from_none (old new s : pystr) :
  (forall i, starts_with old (skipn i s) = false) ->
  replace_from old new 0 s = s.
Proof.
  induction s as [|c s IH]; intros Hnone; [reflexivity|].
  cbn [replace_from]. assert (H0 := Hnone 0). cbn [skipn] in H0.
  rewrite H0. f_equal. apply IH.
  intros i. apply (Hnone (S i)).
Qed.

(** A dashboard address that ends in [/currency.php], with no earlier
    occurrence of it, gives the blog address: the same with [/blog.php]
    at the end. *)
Theorem configured_API_URL_swaps_endpoint (environ : Environ) (base : pystr) :
  environ_lookup environ (lit "DASHBOARD_API_URL")
  = Some (base ++ lit "/currency.php") ->
  (forall i, i < length base ->
             starts_with (lit "/currency.php")
               (skipn i (base ++ lit "/currency.php")) = false) ->
  configured_API_URL environ = base ++ lit "/blog.php".
Proof.
  intros Hurl Hnone. unfold configured_API_URL, os_getenv. rewrite Hurl.
  change (str_replace (lit "/currency.php") (lit "/blog.php")
            (base ++ lit "/currency.php"))
    with (replace_from (lit "/currency.php") (lit "/blog.php") 0
            (base ++ lit "/currency.php")).
  rewrite <- (app_nil_r (lit "/currency.php")) at 2.
  rewrite replace_from_first.
  - reflexivity.
  - discriminate.
  - intros i Hi. rewrite app_nil_r. now apply Hnone.
Qed.

(** A dashboard address in which [/currency.php] does not occur is taken
    as the blog address as it is. *)
Theorem configured_API_URL_unchanged (environ : Environ) (address : pystr) :
  environ_lookup environ (lit "DASHBOARD_API_URL") = Some address ->
  (forall i, starts_with (lit "/currency.php") (skipn i address) = false) ->
  configured_API_URL environ = address.
Proof.
  intros Hurl Hnone. unfold configured_API_URL, os_getenv. rewrite Hurl.
  now apply replace_from_none.
Qed.

(** When [BLOG_API_KEY] is set but empty, the key of the dashboard is not
    used in its place: [publish_post] and [delete_post] refuse with the
    configuration message and send nothing. *)
Theorem empty_blog_key_disables_publishing {U : Unicode}
    (environ : Environ) (E : Env) (post_data : pydict) (draft : bool)
    (slug : pystr) (st : State) :
  environ_lookup environ (lit "BLOG_API_KEY") = Some [] ->
  API_KEY (load_config environ E) = []
  /\ publish_post (load_config environ E) post_data draft st
     = (Return false,
        {| stdout :=
             stdout st
             ++ [lit "Error: API_URL and BLOG_API_KEY (or DASHBOARD_API_KEY) must be set in .env"];
           sent := sent st |})
  /\ delete_post (load_config environ E) slug st
     = (Return false,
        {| stdout :=
             stdout st
             ++ [lit "Error: API_URL and BLOG_API_KEY must be set in .env"];
           sent := sent st |}).
Proof.
  intros Hkey.
  assert (Hempty : API_KEY (load_config environ E) = []).
  { cbn [API_KEY load_config]. unfold configured_API_KEY, os_getenv.
    now rewrite Hkey. }
  split; [exact Hempty|].
  unfold publish_post, delete_post. rewrite Hempty.
  cbn [is_empty]. rewrite orb_true_r. split; reflexivity.
Qed.

Lemma configured_API_URL_swaps_endpoint_witness :
  configured_API_URL masked_environ
  = lit "https://example.com/api" ++ lit "/blog.php".
Proof.
  apply (configured_API_URL_swaps_endpoint masked_environ
           (lit "https://example.com/api")).
  - reflexivity.
  - intros i Hi.
    do 23 (destruct i as [|i]; [reflexivity|]).
    simpl in Hi. lia.
Defined.

Lemma configured_API_URL_unchanged_witness :
  configured_API_URL
    [(lit "DASHBOARD_API_URL", lit "https://example.com/blog.php")]
  = lit "https://example.com/blog.php".
Proof.
  apply (configured_API_URL_unchanged
           [(lit "DASHBOARD_API_URL", lit "https://example.com/blog.php")]).
  - reflexivity.
  - intros i.
    do 28 (destruct i as [|i]; [reflexivity|]).
    destruct i; reflexivity.
Defined.

Lemma empty_blog_key_disables_publishing_witness :
  API_KEY (load_config masked_environ accepting_env) = []
  /\ publish_post (U := ascii_unicode)
       (load_config masked_environ accepting_env) my_article_record false
       initial
     = (Return false,
        {| stdout :=
             stdout initial
             ++ [lit "Error: API_URL and BLOG_API_KEY (or DASHBOARD_API_KEY) must be set in .env"];
           sent := sent initial |})
  /\ delete_post (U := ascii_unicode)
       (load_config masked_environ accepting_env) (lit "my-article") initial
     = (Return false,
        {| stdout :=
             stdout initial
             ++ [lit "Error: API_URL and BLOG_API_KEY must be set in .env"];
           sent := sent initial |}).
Proof.
  exact (empty_blog_key_disables_publishing (U := ascii_unicode)
           masked_environ accepting_env my_article_record false
           (lit "my-article") initial eq_refl).
Defined.
